(** * MedRAG pipeline: risk screening, retrieval filter, citation checks

    A shallow embedding of [MED_RAG/risk_model.py], [MED_RAG/trust_model.py]
    and [MED_RAG/ragpipeline.py], and the properties of the orchestrator
    ([Medical_RAGPipeline.query]) proved over it.

    Conventions of the embedding.
    - A Python [str] is a [string]: one [ascii] per character, read as the
      character's code point (code points below 256).
    - A Python [float] is the rational number it denotes ([Q]); comparisons
      are those of the rationals, and the division and the product of
      [verify_citations] round to the nearest binary64 ([PyFloat.round]).
      Infinities and NaN are not represented: no value computed here comes
      near the overflow threshold.
    - A Python [dict] with fixed keys built in one place is a [Record];
      the dictionary returned by [query], whose keys differ from one
      return statement to the next, is a [gmap string pyval].
    - [print] calls are left out: nothing read later depends on them. *)

From Stdlib Require Import Ascii DecimalString ZArith QArith.
From Stdlib Require Floats.SpecFloat.
From stdpp Require Import gmap strings list.

Local Open Scope string_scope.

(** ** Python string operations used by the sources *)

Module PyStr.

(** [str.lower] on one character: A-Z and the upper-case letters of
    Latin-1 (U+00C0..U+00DE but the multiplication sign U+00D7) move 32
    code points up, every other character below 256 is unchanged. *)
Definition lower_char (c : ascii) : ascii :=
  let n := N_of_ascii c in
  if ((65 <=? n) && (n <=? 90)
      || (192 <=? n) && (n <=? 222) && negb (n =? 215))%N
  then ascii_of_N (n + 32) else c.

(** [s.lower()] *)
Fixpoint lower (s : string) : string :=
  match s with
  | EmptyString => EmptyString
  | String c t => String (lower_char c) (lower t)
  end.

(** [s.startswith(p)] *)
Fixpoint startswith (p s : string) : bool :=
  match p, s with
  | EmptyString, _ => true
  | String _ _, EmptyString => false
  | String a p', String b s' =>
      if Ascii.eqb a b then startswith p' s' else false
  end.

(** [needle in hay] on strings: some suffix of [hay] starts with
    [needle]. *)
Fixpoint contains (needle hay : string) : bool :=
  startswith needle hay ||
  match hay with
  | EmptyString => false
  | String _ t => contains needle t
  end.

(** [any(k in s for k in keywords)] *)
Definition any_in (keywords : list string) (s : string) : bool :=
  existsb (fun k => contains k s) keywords.

(** [[Document {i}]] and the like: the decimal digits of a natural
    number. *)
Definition str_of_nat (n : nat) : string :=
  NilEmpty.string_of_uint (Nat.to_uint n).

(** The keyword [kw] occurs in [q] when case is ignored: some
    substring of [q] and [kw] have the same lower-case form. *)
Definition occurs_ignoring_case (kw q : string) : Prop :=
  exists pre mid post, q = pre +:+ mid +:+ post /\ lower mid = lower kw.

(** Some keyword of the table occurs in [q], case ignored. *)
Definition mentions (keywords : list string) (q : string) : Prop :=
  exists kw, kw ∈ keywords /\ occurs_ignoring_case kw q.

End PyStr.

(** ** Python floats *)

Module PyFloat.

(** binary64: 53 bits of precision; the last place of the smallest
    subnormal has exponent -1074. *)
Definition prec : Z := 53.
Definition emin : Z := (-1074)%Z.

(** The integer [k] with [2^k <= n/d < 2^(k+1)]. *)
Definition ilog2 (n d : positive) : Z :=
  let k := (Z.log2 (Zpos n) - Z.log2 (Zpos d))%Z in
  if (0 <=? k)%Z then
    if (Zpos d * 2 ^ k <=? Zpos n)%Z then k else (k - 1)%Z
  else
    if (Zpos d <=? Zpos n * 2 ^ (- k))%Z then k else (k - 1)%Z.

(** The integer nearest to [num/den], the even one on a tie. *)
Definition nearest_even (num den : Z) : Z :=
  let q := (num / den)%Z in
  let r := (num mod den)%Z in
  if (2 * r <? den)%Z then q
  else if (den <? 2 * r)%Z then (q + 1)%Z
  else if Z.even q then q else (q + 1)%Z.

(** The binary64 nearest to [n/d]: a multiple [m * 2^e] of the unit in
    the last place [2^e] of the binade of [n/d]. *)
Definition round_pos (n d : positive) : Q :=
  let e := Z.max emin (ilog2 n d - (prec - 1)) in
  if (0 <=? e)%Z then
    inject_Z (nearest_even (Zpos n) (Zpos d * 2 ^ e) * 2 ^ e)
  else
    Qmake (nearest_even (Zpos n * 2 ^ (- e)) (Zpos d)) (Z.to_pos (2 ^ (- e))).

(** Rounding to nearest, ties to even, below the overflow threshold. *)
Definition round (x : Q) : Q :=
  match Qnum x with
  | Z0 => 0%Q
  | Zpos n => round_pos n (Qden x)
  | Zneg n => (- round_pos n (Qden x))%Q
  end.

(** [a / b] and [a * b] on floats; [len(x) / len(y)] on two integers is
    the correctly rounded quotient as well. *)
Definition fdiv (a b : Q) : Q := round (a / b).
Definition fmul (a b : Q) : Q := round (a * b).

(** The Standard Library's specification of binary64, to compare
    [round] with: the float of an integer (exact below [2^53]) and the
    rational that a finite float denotes. *)
Definition SF_of_Z (z : Z) : SpecFloat.spec_float :=
  SpecFloat.binary_normalize 53 1024 z 0 false.

Definition Q_of_SF (f : SpecFloat.spec_float) : Q :=
  match f with
  | SpecFloat.S754_finite s m e =>
      let v := if (0 <=? e)%Z then inject_Z (Zpos m * 2 ^ e)
               else Qmake (Zpos m) (Z.to_pos (2 ^ (- e))) in
      if s then (- v)%Q else v
  | _ => 0%Q
  end.

(** [a / b * 100] as the Standard Library's binary64 computes it. *)
Definition SF_percent (a b : Z) : Q :=
  Q_of_SF (SpecFloat.SFmul 53 1024
             (SpecFloat.SFdiv 53 1024 (SF_of_Z a) (SF_of_Z b))
             (SF_of_Z 100)).

End PyFloat.

(** ** risk_model.py *)

Module RiskModel.
Import PyStr.

(** The dictionary [risks] of [check_query_safety]. *)
Record RiskAssessment := mkRisk {
  safe : bool;
  warnings : list string;
  risk_level : string
}.

Definition emergency_keywords : list string :=
  ["emergency"; "urgent"; "dying"; "overdose"; "suicide"; "severe pain"].
Definition diagnostic_keywords : list string :=
  ["do i have"; "am i"; "diagnose me"; "what is wrong with me"].
Definition treatment_keywords : list string :=
  ["should i take"; "how much"; "dosage"; "can i stop"].

Definition emergency_warning : string :=
  "EMERGENCY: This system is not for emergencies. Call 911 or emergency services.".
Definition diagnostic_warning : string :=
  "WARNING: This system provides information only, not diagnosis.".
Definition treatment_warning : string :=
  "CAUTION: Consult healthcare provider for treatment decisions.".

(** [risks['warnings'].append(w)] *)
Definition add_warning (w : string) (r : RiskAssessment) : RiskAssessment :=
  mkRisk (safe r) (warnings r ++ [w]) (risk_level r).
Definition set_safe (b : bool) (r : RiskAssessment) : RiskAssessment :=
  mkRisk b (warnings r) (risk_level r).
Definition set_risk_level (l : string) (r : RiskAssessment) : RiskAssessment :=
  mkRisk (safe r) (warnings r) l.

(** [RiskManager.check_query_safety] *)
Definition check_query_safety (query : string) : RiskAssessment :=
  let risks := mkRisk true [] "low" in
  if any_in emergency_keywords (lower query) then
    let risks := set_safe false risks in
    let risks := add_warning emergency_warning risks in
    let risks := set_risk_level "critical" risks in
    risks
  else
    let risks :=
      if any_in diagnostic_keywords (lower query) then
        set_risk_level "high" (add_warning diagnostic_warning risks)
      else risks in
    let risks :=
      if any_in treatment_keywords (lower query) then
        set_risk_level "medium" (add_warning treatment_warning risks)
      else risks in
    risks.

End RiskModel.

(** ** The regular expression [PMID:\s*(\d+)] *)

Module PyRe.
Import PyStr.

(** [\s] on a [str] pattern: the characters for which [str.isspace]
    holds (tab to carriage return, the four separators U+001C..U+001F,
    space, U+0085 and U+00A0 below 256). *)
Definition is_space (c : ascii) : bool :=
  let n := N_of_ascii c in
  ((9 <=? n) && (n <=? 13) || (28 <=? n) && (n <=? 32)
   || (n =? 133) || (n =? 160))%N.

(** [\d]: the decimal digits (0-9 are the only ones below 256). *)
Definition is_digit (c : ascii) : bool :=
  let n := N_of_ascii c in ((48 <=? n) && (n <=? 57))%N.

(** What is left of [s] after the greedy [\s*]. *)
Fixpoint skip_spaces (s : string) : string :=
  match s with
  | String c t => if is_space c then skip_spaces t else s
  | EmptyString => EmptyString
  end.

(** The longest run of digits at the head of [s]: what a greedy [\d+]
    captures when it is not empty. *)
Fixpoint take_digits (s : string) : string :=
  match s with
  | String c t => if is_digit c then String c (take_digits t) else EmptyString
  | EmptyString => EmptyString
  end.

(** [s[n:]] *)
Fixpoint drop (n : nat) (s : string) : string :=
  match n, s with
  | S k, String _ t => drop k t
  | _, _ => s
  end.

(** One attempt of the pattern at the head of [s]: the captured group
    and the length of the whole match. After the literal "PMID:" the
    greedy [\s*] takes every space; giving some back cannot help, the
    character after it would be a space and not a digit. *)
Definition match_pmid (s : string) : option (string * nat) :=
  if startswith "PMID:" s then
    let after_colon := drop 5 s in
    let after_spaces := skip_spaces after_colon in
    let digits := take_digits after_spaces in
    match digits with
    | EmptyString => None
    | String _ _ =>
        Some (digits,
              (5 + (String.length after_colon - String.length after_spaces)
               + String.length digits)%nat)
    end
  else None.

(** [re.findall] scans from left to right and resumes after the end of
    each match; [skip] counts the characters of the last match still to
    be passed over. *)
Fixpoint findall_from (skip : nat) (s : string) : list string :=
  match s with
  | EmptyString => []
  | String _ t =>
      match skip with
      | S k => findall_from k t
      | O =>
          match match_pmid s with
          | Some (digits, len) => digits :: findall_from (len - 1) t
          | None => findall_from 0 t
          end
      end
  end.

(** [re.findall(r'PMID:\s*(\d+)', s)] *)
Definition findall_pmid (s : string) : list string := findall_from 0 s.

End PyRe.

(** ** Documents *)

(** One result of [MedicalVectorDB.search]. *)
Record Document := mkDoc {
  rank : Z;
  pmid : string;
  title : string;
  abstract : string;
  specialty : string;
  journal : string;
  publication_date : string;
  similarity_score : Q
}.

(** ** trust_model.py *)

Module TrustModel.
Import PyRe.

(** The dictionary [verification] of [verify_citations]. *)
Record Verification := mkVerification {
  valid : bool;
  total_citations : nat;
  valid_citations : nat;
  invalid_citations : list string;
  uncited_sources : list string;
  citation_accuracy : Q
}.

(** [len(a) / len(b) * 100]; it is evaluated only where [b] is not 0. *)
Definition percent (a b : nat) : Q :=
  PyFloat.fmul (PyFloat.fdiv (inject_Z (Z.of_nat a)) (inject_Z (Z.of_nat b)))
               100.

(** [TrustworthinessVerifier.verify_citations]. [list(s)] lists a set in
    an order that Python leaves open; [elements] is one such order. *)
Definition verify_citations (answer : string) (documents : list Document)
  : Verification :=
  let cited_pmids : gset string := list_to_set (findall_pmid answer) in
  let source_pmids : gset string := list_to_set (pmid <$> documents) in
  let invalid : gset string := cited_pmids ∖ source_pmids in
  let uncited : gset string := source_pmids ∖ cited_pmids in
  {| valid := bool_decide (size invalid = 0%nat);
     total_citations := size cited_pmids;
     valid_citations := size (cited_pmids ∖ invalid);
     invalid_citations := elements invalid;
     uncited_sources := elements uncited;
     citation_accuracy :=
       if bool_decide (cited_pmids = ∅) then 0%Q
       else percent (size (cited_pmids ∖ invalid)) (size cited_pmids) |}.

End TrustModel.

(** ** ragpipeline.py *)

Module RagPipeline.
Import PyStr PyRe RiskModel.

(** An entry of the dictionary built by [extract_citations]. *)
Record Citation := mkCitation {
  c_pmid : string;
  c_title : string;
  c_journal : string;
  c_publication_date : string;
  c_url : string
}.

(** The values stored in the dictionary that [query] returns. *)
Inductive pyval :=
| VStr (s : string)
| VBool (b : bool)
| VInt (n : Z)
| VFloat (q : Q)
| VCitations (c : gmap string Citation)
| VDocs (l : list Document).

(** A raised exception: its class and [str(e)]. Every exception of the
    model is an instance of [Exception]. *)
Record PyExn := mkExn { exn_class : string; exn_msg : string }.

Inductive Outcome (A : Type) :=
| Returns (a : A)
| Raises (e : PyExn).
Arguments Returns {A} a.
Arguments Raises {A} e.

(** The attributes of a [Medical_RAGPipeline] object; [vector_db] and
    [llm] are the two oracles below, and the attributes of
    [risk_manager] and [trustworthiness_verifier] are set once in their
    constructors and never written again. *)
Record Pipeline := mkPipeline {
  api_key : string;
  model_name : string;
  top_k : Z;
  similarity_threshold : Q;
  temperature : Q;
  max_tokens : Z;
  cost_per_query : Q;
  query_count : Z;
  total_cost : Q
}.

(** [Medical_RAGPipeline.__init__], once the key is known to be there. *)
Definition init (key model : string) (k : Z) (threshold temp : Q)
    (tokens : Z) : Pipeline :=
  mkPipeline key model k threshold temp tokens 0 0 0.

(** Calls made to the two external collaborators. *)
Inductive OracleCall :=
| SearchCall (query : string) (k : Z)
| GenerateCall (prompt : string).

Definition nl : string := String (ascii_of_nat 10) EmptyString.

(** [Medical_RAGPipeline.format_context]: one block per document. *)
Definition context_block (i : nat) (doc : Document) : string :=
  nl +:+ "[Document " +:+ str_of_nat i +:+ "]" +:+ nl
  +:+ "PMID: " +:+ pmid doc +:+ nl
  +:+ "Title: " +:+ title doc +:+ nl
  +:+ "Journal: " +:+ journal doc +:+ nl
  +:+ "Specialty: " +:+ specialty doc +:+ nl
  +:+ nl
  +:+ "Abstract:" +:+ nl
  +:+ abstract doc +:+ nl
  +:+ nl
  +:+ "---".

(** [enumerate(documents, 1)] mapped to the blocks. *)
Fixpoint context_parts (i : nat) (documents : list Document) : list string :=
  match documents with
  | [] => []
  | doc :: rest => context_block i doc :: context_parts (S i) rest
  end.

(** [sep.join(parts)] *)
Fixpoint join (sep : string) (parts : list string) : string :=
  match parts with
  | [] => EmptyString
  | [x] => x
  | x :: rest => x +:+ sep +:+ join sep rest
  end.

Definition no_literature : string := "No relevant medical literature found.".

Definition format_context (documents : list Document) : string :=
  match documents with
  | [] => no_literature
  | _ => join nl (context_parts 1 documents)
  end.

(** [Medical_RAGPipeline.create_prompt] *)
Definition create_prompt (query context : string) : string :=
  "You are a medical AI assistant helping healthcare professionals. Provide accurate, evidence-based answers with proper citations."
  +:+ nl +:+ nl
  +:+ "MEDICAL LITERATURE:" +:+ nl
  +:+ context +:+ nl
  +:+ nl
  +:+ "QUESTION: " +:+ query +:+ nl
  +:+ nl
  +:+ "INSTRUCTIONS:" +:+ nl
  +:+ "1. Answer based ONLY on the provided literature" +:+ nl
  +:+ "2. Cite sources using [PMID: xxxxx] format" +:+ nl
  +:+ "3. If information is insufficient, state this clearly" +:+ nl
  +:+ "4. Use professional medical language" +:+ nl
  +:+ "5. Highlight any conflicting findings" +:+ nl
  +:+ nl
  +:+ "ANSWER:".

(** [Medical_RAGPipeline.extract_citations]: [next(...)] is the first
    document with that pmid; the loop runs over the set of the
    mentioned pmids, so each key is written once. *)
Definition cite (documents : list Document)
    (citations : gmap string Citation) (p : string) : gmap string Citation :=
  match List.find (fun d => bool_decide (pmid d = p)) documents with
  | Some doc =>
      <[p := mkCitation p (title doc) (journal doc) (publication_date doc)
               ("https://pubmed.ncbi.nlm.nih.gov/" +:+ p +:+ "/")]> citations
  | None => citations
  end.

Definition extract_citations (answer : string) (documents : list Document)
  : gmap string Citation :=
  let mentioned_pmids := findall_pmid answer in
  foldl (cite documents) ∅
        (elements (list_to_set mentioned_pmids : gset string)).



Section Orchestrator.

(** The state of the collaborators, and the two oracles:
    [self.vector_db.search(query, top_k=k)] and
    [self.llm.generate_content(prompt).text]. Either may return or
    raise, and may change the collaborators' state. *)
Context {World : Type}.
Variable vector_db_search :
  string -> Z -> World -> Outcome (list Document) * World.
Variable llm_generate_content :
  string -> World -> Outcome string * World.

(** What a method can read and change: the pipeline object, the
    collaborators, and the log of the calls made to them. *)
Record State := mkState {
  self : Pipeline;
  world : World;
  calls : list OracleCall
}.

(** Methods: state passing with exceptions. *)
Definition M (A : Type) : Type := State -> Outcome A * State.

Definition ret {A} (a : A) : M A := fun st => (Returns a, st).

Definition raise {A} (e : PyExn) : M A := fun st => (Raises e, st).

Definition bind {A B} (m : M A) (k : A -> M B) : M B :=
  fun st =>
    match m st with
    | (Returns a, st') => k a st'
    | (Raises e, st') => (Raises e, st')
    end.

(** [try: m except Exception as e: h e] *)
Definition try_except {A} (m : M A) (h : PyExn -> M A) : M A :=
  fun st =>
    match m st with
    | (Returns a, st') => (Returns a, st')
    | (Raises e, st') => h e st'
    end.

Notation "'do' x <- m ; k" := (bind m (fun x => k))
  (at level 10, x name, m at level 100, k at level 200).

Definition get_self : M Pipeline := fun st => (Returns (self st), st).

Definition call_search (query : string) (k : Z) : M (list Document) :=
  fun st =>
    let (r, w) := vector_db_search query k (world st) in
    (r, mkState (self st) w (calls st ++ [SearchCall query k])).

Definition call_generate (prompt : string) : M string :=
  fun st =>
    let (r, w) := llm_generate_content prompt (world st) in
    (r, mkState (self st) w (calls st ++ [GenerateCall prompt])).

(** [self.query_count += 1] *)
Definition incr_query_count : M unit :=
  fun st =>
    let p := self st in
    (Returns tt,
     mkState (mkPipeline (api_key p) (model_name p) (top_k p)
                (similarity_threshold p) (temperature p) (max_tokens p)
                (cost_per_query p) (query_count p + 1) (total_cost p))
             (world st) (calls st)).

(** [l[0]] *)
Definition first {A} (l : list A) : M A :=
  match l with
  | x :: _ => ret x
  | [] => raise (mkExn "IndexError" "list index out of range")
  end.

(** [r['similarity_score'] >= self.similarity_threshold] *)
Definition passes (threshold : Q) (r : Document) : bool :=
  Qle_bool threshold (similarity_score r).

(** [Medical_RAGPipeline.retrieve_documents] *)
Definition retrieve_documents (query : string) : M (list Document) :=
  do p <- get_self ;
  do results <- call_search query (top_k p) ;
  ret (List.filter (passes (similarity_threshold p)) results).

(** [Medical_RAGPipeline.generate_answer] *)
Definition generate_answer (query context : string) : M string :=
  let prompt := create_prompt query context in
  try_except
    (do text <- call_generate prompt ; ret text)
    (fun e => ret ("Error generating answer: " +:+ exn_msg e)).

(** [Medical_RAGPipeline.query]. The function has three [return]
    statements that can be reached: the blocked result (line 136), the
    empty result (line 162) and the result of line 198. What the source
    has after that third [return] (citation verification, transparency,
    answer safety and a fourth, longer dictionary, lines 207-237) is
    never executed. The parameter [verbose] only selects what is
    printed. [validate_retrieval] is total on documents (its one
    fallible step, the parse of the year, sits in a [try] whose handler
    passes) and its result only feeds a [print]. *)
Definition query (question : string) : M (gmap string pyval) :=
  let risk_assessment := check_query_safety question in
  if negb (safe risk_assessment) then
    do w <- first (warnings risk_assessment) ;
    ret (<["question" := VStr question]>
         (<["answer" := VStr w]>
         (<["citations" := VCitations ∅]>
         (<["sources" := VDocs []]>
         (<["risk_level" := VStr "critical"]>
         (<["safe" := VBool false]> ∅))))))
  else
    do documents <- retrieve_documents question ;
    match documents with
    | [] =>
        ret (<["question" := VStr question]>
             (<["answer" := VStr no_literature]>
             (<["citations" := VCitations ∅]>
             (<["sources" := VDocs []]>
             (<["num_sources" := VInt 0]>
             (<["cost" := VFloat 0]> ∅))))))
    | _ :: _ =>
        let context := format_context documents in
        do answer <- generate_answer question context ;
        let citations := extract_citations answer documents in
        do _ <- incr_query_count ;
        ret (<["question" := VStr question]>
             (<["answer" := VStr answer]>
             (<["citations" := VCitations citations]>
             (<["sources" := VDocs documents]>
             (<["num_sources" := VInt (Z.of_nat (length documents))]>
             (<["cost" := VFloat 0]> ∅))))))
    end.

(** [Medical_RAGPipeline.batch_query]: the results of the queries in
    order; an exception ends the loop. *)
Fixpoint batch_query (questions : list string)
  : M (list (gmap string pyval)) :=
  match questions with
  | [] => ret []
  | question :: rest =>
      do result <- query question ;
      do results <- batch_query rest ;
      ret (result :: results)
  end.

End Orchestrator.

(** *** Vocabulary of the statements *)

(** The state after the one call that [retrieve_documents] makes, and
    after the one call that [generate_answer] makes. *)
Definition searched {World} (q : string) (w : World) (st : @State World)
  : @State World :=
  mkState (self st) w (calls st ++ [SearchCall q (top_k (self st))]).

Definition generated {World} (prompt : string) (w : World)
    (st : @State World) : @State World :=
  mkState (self st) w (calls st ++ [GenerateCall prompt]).

(** The state after [self.query_count += 1]. *)
Definition counted {World} (st : @State World) : @State World :=
  mkState (mkPipeline (api_key (self st)) (model_name (self st))
             (top_k (self st)) (similarity_threshold (self st))
             (temperature (self st)) (max_tokens (self st))
             (cost_per_query (self st)) (query_count (self st) + 1)
             (total_cost (self st)))
          (world st) (calls st).

(** The entry that [extract_citations] writes for [p] from [doc]. *)
Definition citation_of (p : string) (doc : Document) : Citation :=
  mkCitation p (title doc) (journal doc) (publication_date doc)
             ("https://pubmed.ncbi.nlm.nih.gov/" +:+ p +:+ "/").

(** What [generate_answer] returns for each outcome of the model. *)
Definition answer_of (out : Outcome string) : string :=
  match out with
  | Returns text => text
  | Raises e => "Error generating answer: " +:+ exn_msg e
  end.

(** The dictionaries of the second and of the third [return]. *)
Definition empty_result (question : string) : gmap string pyval :=
  <["question" := VStr question]>
  (<["answer" := VStr no_literature]>
  (<["citations" := VCitations ∅]>
  (<["sources" := VDocs []]>
  (<["num_sources" := VInt 0]>
  (<["cost" := VFloat 0]> ∅))))).

Definition generated_result (question answer : string)
    (documents : list Document) : gmap string pyval :=
  <["question" := VStr question]>
  (<["answer" := VStr answer]>
  (<["citations" := VCitations (extract_citations answer documents)]>
  (<["sources" := VDocs documents]>
  (<["num_sources" := VInt (Z.of_nat (length documents))]>
  (<["cost" := VFloat 0]> ∅))))).

(** [kept] is [results] with the documents below the threshold struck
    out, the others left in place. *)
Inductive retained (threshold : Q) : list Document -> list Document -> Prop :=
| retained_nil : retained threshold [] []
| retained_keep d results kept :
    (threshold <= similarity_score d)%Q ->
    retained threshold results kept ->
    retained threshold (d :: results) (d :: kept)
| retained_drop d results kept :
    ~ (threshold <= similarity_score d)%Q ->
    retained threshold results kept ->
    retained threshold (d :: results) kept.

(** The dictionary has every key of the list. *)
Definition has_fields (fields : list string) (r : gmap string pyval) : bool :=
  forallb (fun k => match r !! k with Some _ => true | None => false end)
          fields.

(** The fields of a QueryResult. *)
Definition query_result_fields : list string :=
  ["question"; "answer"; "citations"; "sources"; "risk_level";
   "citation_accuracy"; "transparency_score"; "safe"].

Definition structurally_complete (r : gmap string pyval) : bool :=
  has_fields query_result_fields r.

(** The result comes from the third [return]: it has sources. *)
Definition fully_generated (r : gmap string pyval) : bool :=
  match r !! "sources" with
  | Some (VDocs (_ :: _)) => true
  | _ => false
  end.

(** The pipeline object with another value of [query_count]. *)
Definition with_query_count (n : Z) (p : Pipeline) : Pipeline :=
  mkPipeline (api_key p) (model_name p) (top_k p) (similarity_threshold p)
             (temperature p) (max_tokens p) (cost_per_query p) n
             (total_cost p).

End RagPipeline.

(** ** Concrete collaborators and inputs *)

Module Examples.
Import RiskModel RagPipeline.

Definition doc111 : Document :=
  mkDoc 1 "111" "Metformin in type 2 diabetes" "Metformin lowers glucose."
        "endocrinology" "Diabetes Care" "2021-03-01" (9 # 10).
Definition doc222 : Document :=
  mkDoc 2 "222" "Insulin therapy" "Insulin is titrated to effect."
        "endocrinology" "The Lancet" "2019-06-15" (6 # 10).
Definition doc333 : Document :=
  mkDoc 3 "333" "Statins and the liver" "Statins are well tolerated."
        "cardiology" "Heart" "2015-01-20" (3 # 10).
Definition doc_at_threshold : Document :=
  mkDoc 4 "444" "Aspirin" "Aspirin inhibits platelets."
        "cardiology" "Circulation" "2022-11-02" (5 # 10).

(** A vector database that returns the same ranking for every query;
    the collaborators' state counts the calls received. *)
Definition search_fixed (results : list Document)
    (query : string) (k : Z) (w : nat) : Outcome (list Document) * nat :=
  (Returns results, S w).

(** A vector database that is not loaded. *)
Definition search_not_loaded
    (query : string) (k : Z) (w : nat) : Outcome (list Document) * nat :=
  (Raises (mkExn "ValueError" "Database not loaded. Call load() first."),
   S w).

(** A model that answers with the same text, and one out of quota. *)
Definition generate_fixed (text : string)
    (prompt : string) (w : nat) : Outcome string * nat :=
  (Returns text, S w).
Definition generate_quota
    (prompt : string) (w : nat) : Outcome string * nat :=
  (Raises (mkExn "ResourceExhausted" "429 quota exceeded"), S w).

Definition answer_D : string :=
  "Metformin lowers glucose [PMID: 111]. [PMID: 999]".

(** A pipeline just built with the default settings. *)
Definition fresh : State :=
  mkState (init "key" "gemini-1.5-flash" 3 (1 # 2) (3 # 10) 500) 0%nat [].

Definition query_A : string := "What is the dosage for metformin?".
Definition query_B : string := "I think I am dying, severe pain".

End Examples.

(** * The rest of the three modules, and the vector database *)

(** ** [int(s)] and slices *)

Module PyInt.
Import PyRe.

(** The characters that [int] skips around the number: the ASCII
    spaces (tab to carriage return, space) and, in a string that is not
    pure ASCII, U+0085 and U+00A0. The separators U+001C..U+001F, which
    [str.isspace] accepts, are not skipped. *)
Definition is_int_space (c : ascii) : bool :=
  let n := N_of_ascii c in
  ((9 <=? n) && (n <=? 13) || (n =? 32) || (n =? 133) || (n =? 160))%N.

Definition digit_value (c : ascii) : Z := (Z.of_N (N_of_ascii c) - 48)%Z.

Fixpoint lstrip (s : string) : string :=
  match s with
  | String c t => if is_int_space c then lstrip t else s
  | EmptyString => EmptyString
  end.

Fixpoint all_int_space (s : string) : bool :=
  match s with
  | String c t => is_int_space c && all_int_space t
  | EmptyString => true
  end.

(** The digits of the number, single underscores allowed between them:
    the value read so far, whether a digit has been seen, whether the
    last character was an underscore. The result is the value and what
    follows the number. *)
Fixpoint scan_digits (acc : Z) (seen after_underscore : bool) (s : string)
  : option (Z * string) :=
  match s with
  | String c t =>
      if is_digit c then scan_digits (acc * 10 + digit_value c) true false t
      else if Ascii.eqb c "_" then
        if seen && negb after_underscore then scan_digits acc seen true t
        else None
      else if seen && negb after_underscore then Some (acc, s) else None
  | EmptyString =>
      if seen && negb after_underscore then Some (acc, EmptyString) else None
  end.

(** [int(s)] in base 10: [None] stands for the [ValueError]. *)
Definition py_int (s : string) : option Z :=
  let s := lstrip s in
  let (negative, s) :=
    match s with
    | String "+" t => (false, t)
    | String "-" t => (true, t)
    | _ => (false, s)
    end in
  match scan_digits 0 false false s with
  | Some (v, rest) =>
      if all_int_space rest then Some (if negative then (- v)%Z else v)
      else None
  | None => None
  end.

(** [s[:n]] for [0 <= n] *)
Fixpoint str_take (n : nat) (s : string) : string :=
  match n, s with
  | S k, String c t => String c (str_take k t)
  | _, _ => EmptyString
  end.

(** [l[:k]]: a negative [k] counts from the end. *)
Definition slice_to {A} (k : Z) (l : list A) : list A :=
  if (0 <=? k)%Z then firstn (Z.to_nat k) l
  else firstn (length l - Z.to_nat (- k)) l.

(** [str(n)] of an integer, as an f-string prints it. *)
Definition str_of_Z (n : Z) : string := NilZero.string_of_int (Z.to_int n).

End PyInt.

(** ** risk_model.py: [validate_retrieval] and [check_answer_safety] *)

Module RiskManagerModel.
Import PyStr PyInt.

(** The attributes that [RiskManager.__init__] sets. *)
Record RiskManager := mkRiskManager {
  min_similarity_threshold : Q;
  min_documents_required : Z;
  max_answer_length : Z;
  disclaimer_shown : bool
}.

Definition new_risk_manager : RiskManager :=
  mkRiskManager (1 # 2) 1 1000 false.

(** The dictionary [validation]. *)
Record RetrievalValidation := mkValidation {
  retrieval_valid : bool;
  issues : list string
}.

(** [d['similarity_score'] < self.min_similarity_threshold] *)
Definition low_similarity (self : RiskManager) (d : Document) : bool :=
  negb (Qle_bool (min_similarity_threshold self) (similarity_score d)).

(** The body of the loop over the documents: the year is the integer
    read from the first four characters of the date; when that raises,
    the bare [except] passes and the document is not old. *)
Definition is_old (current_year : Z) (doc : Document) : bool :=
  match py_int (str_take 4 (publication_date doc)) with
  | Some pub_year => (5 <? current_year - pub_year)%Z
  | None => false
  end.

(** [RiskManager.validate_retrieval]; [current_year] is
    [datetime.now().year]. *)
Definition validate_retrieval (self : RiskManager) (current_year : Z)
    (documents : list Document) : RetrievalValidation :=
  let validation := mkValidation true [] in
  let validation :=
    if (Z.of_nat (length documents) <? min_documents_required self)%Z then
      mkValidation false
        (issues validation
         ++ ["Insufficient sources: " +:+ str_of_nat (length documents)
             +:+ " found, need " +:+ str_of_Z (min_documents_required self)])
    else validation in
  let low_similarity_docs := List.filter (low_similarity self) documents in
  let validation :=
    match low_similarity_docs with
    | _ :: _ =>
        mkValidation (retrieval_valid validation)
          (issues validation
           ++ ["WARNING: " +:+ str_of_nat (length low_similarity_docs)
               +:+ " low-confidence sources"])
    | [] => validation
    end in
  let old_docs := List.filter (is_old current_year) documents in
  match old_docs with
  | _ :: _ =>
      mkValidation (retrieval_valid validation)
        (issues validation
         ++ ["INFO: " +:+ str_of_nat (length old_docs)
             +:+ " sources older than 5 years"])
  | [] => validation
  end.

(** The dictionary [safety]. *)
Record AnswerSafety := mkAnswerSafety {
  answer_safe : bool;
  flags : list string
}.

Definition absolute_words : list string :=
  ["always"; "never"; "definitely"; "certainly"; "guaranteed"].
Definition uncertainty_phrases : list string :=
  ["insufficient information"; "not enough"; "cannot determine"; "unclear"].

Definition flag_no_citations : string := "RISK: Answer has no citations".
Definition flag_absolute : string :=
  "WARNING: Answer contains absolute statements".
Definition flag_uncertain : string :=
  "INFO: Answer indicates uncertainty (GOOD)".
Definition flag_long : string :=
  "WARNING: Answer unusually long, verify accuracy".

(** [RiskManager.check_answer_safety]; [not citations] is the emptiness
    of the dictionary, whatever its values. *)
Definition check_answer_safety {V} (self : RiskManager) (answer : string)
    (citations : gmap string V) : AnswerSafety :=
  let safety := mkAnswerSafety true [] in
  let safety :=
    if bool_decide (citations = ∅) then
      mkAnswerSafety false (flags safety ++ [flag_no_citations])
    else safety in
  let safety :=
    if any_in absolute_words (lower answer) then
      mkAnswerSafety (answer_safe safety) (flags safety ++ [flag_absolute])
    else safety in
  let safety :=
    if any_in uncertainty_phrases (lower answer) then
      mkAnswerSafety (answer_safe safety) (flags safety ++ [flag_uncertain])
    else safety in
  if (max_answer_length self <? Z.of_nat (String.length answer))%Z then
    mkAnswerSafety (answer_safe safety) (flags safety ++ [flag_long])
  else safety.

End RiskManagerModel.

(** ** trust_model.py: [check_transparency] *)

Module TrustAudit.
Import PyStr.

(** The dictionary that [check_transparency] returns. *)
Record Transparency := mkTransparency {
  transparency_score : Z;
  max_score : Z;
  percentage : Q;
  transparency_issues : list string
}.

Definition uncertainty_words : list string :=
  ["may"; "suggest"; "indicate"; "possible"; "unclear"].

(** One criterion: a point, or a named issue. *)
Definition criterion (met : bool) (issue : string)
    (acc : Z * list string) : Z * list string :=
  if met then ((fst acc + 1)%Z, snd acc) else (fst acc, (snd acc ++ [issue])%list).

(** [TrustworthinessVerifier.check_transparency] on the three entries
    that it reads from [result]. A source is a [Document]: the keys
    'similarity_score', 'journal' and 'publication_date' that the third
    and fourth criteria look for are there, so [all(...)] holds and what
    is left of these criteria is that there are sources. *)
Definition check_transparency {V} (citations : gmap string V)
    (sources : list Document) (answer : string) : Transparency :=
  let has_sources := match sources with [] => false | _ :: _ => true end in
  let acc := (0%Z, []) in
  let acc := criterion (negb (bool_decide (citations = ∅)))
               "Missing citations" acc in
  let acc := criterion has_sources "Missing source documents" acc in
  let acc := criterion (has_sources && forallb (fun _ => true) sources)
               "Missing similarity scores" acc in
  let acc := criterion (has_sources && forallb (fun _ => true) sources)
               "Missing metadata" acc in
  let answer_lower := lower answer in
  let acc := criterion (any_in uncertainty_words answer_lower)
               "No uncertainty indicators" acc in
  mkTransparency (fst acc) 5
    (PyFloat.fmul (PyFloat.fdiv (inject_Z (fst acc)) (inject_Z 5)) 100)
    (snd acc).

End TrustAudit.

(** ** vector_db_utils.py: [search_by_specialty] *)

Module VectorDb.
Import PyInt RagPipeline.

Section Search.

Context {World : Type}.
Variable vector_db_search :
  string -> Z -> World -> Outcome (list Document) * World.

(** [MedicalVectorDB.search_by_specialty]; [self.search] is the oracle
    of the pipeline. *)
Definition search_by_specialty (query specialty_wanted : string) (k : Z)
  : M (list Document) :=
  bind (call_search vector_db_search query (k * 3))
    (fun initial_results =>
       let filtered :=
         List.filter (fun r => bool_decide (specialty r = specialty_wanted))
                     initial_results in
       ret (slice_to k filtered)).

End Search.

End VectorDb.

(** ** Vocabulary of the further statements *)

Module Vocabulary.
Import PyRe.

(** Every character of [s] is a decimal digit. *)
Fixpoint all_digits (s : string) : bool :=
  match s with
  | EmptyString => true
  | String c t => is_digit c && all_digits t
  end.

End Vocabulary.

(** * Properties *)

(** ** Substrings and case *)

Module PyStrFacts.
Import PyStr.

Lemma app_cons c a b : String c a +:+ b = String c (a +:+ b).
Proof. reflexivity. Qed.

Lemma app_empty b : EmptyString +:+ b = b.
Proof. reflexivity. Qed.

Lemma lower_app a b : lower (a +:+ b) = lower a +:+ lower b.
Proof.
  induction a as [|c a IH]; [reflexivity|].
  rewrite app_cons. simpl. rewrite IH. reflexivity.
Qed.

Lemma lower_split q : forall a b,
  lower q = a +:+ b ->
  exists a' b', q = a' +:+ b' /\ lower a' = a /\ lower b' = b.
Proof.
  induction q as [|c q IH]; intros a b H.
  - destruct a; [|discriminate]. rewrite app_empty in H. subst b.
    exists EmptyString, EmptyString. auto.
  - destruct a as [|x a].
    + rewrite app_empty in H. subst b.
      exists EmptyString, (String c q). auto.
    + rewrite app_cons in H. simpl in H. injection H as Hc Hq.
      destruct (IH _ _ Hq) as (a' & b' & -> & Ha & Hb).
      exists (String c a'), b'. simpl. rewrite Hc, Ha. auto.
Qed.

Lemma startswith_spec p : forall s,
  startswith p s = true <-> exists post, s = p +:+ post.
Proof.
  induction p as [|a p IH]; intros s; simpl.
  - split; [intros _; exists s; reflexivity | reflexivity].
  - destruct s as [|b s].
    + split; [discriminate | intros [post H]; discriminate].
    + destruct (Ascii.eqb_spec a b) as [->|Hne].
      * rewrite IH. split; intros [post H]; exists post.
        -- rewrite app_cons, H. reflexivity.
        -- rewrite app_cons in H. injection H. auto.
      * split; [discriminate|]. intros [post H].
        rewrite app_cons in H. injection H. intros _ E. congruence.
Qed.

Lemma contains_spec k : forall s,
  contains k s = true <-> exists pre post, s = pre +:+ k +:+ post.
Proof.
  induction s as [|c s IH]; simpl.
  - rewrite orb_false_r, startswith_spec. split.
    + intros [post H]. exists EmptyString, post. exact H.
    + intros (pre & post & H). destruct pre; [|discriminate].
      exists post. exact H.
  - rewrite orb_true_iff, startswith_spec, IH. split.
    + intros [[post H] | (pre & post & H)].
      * exists EmptyString, post. exact H.
      * exists (String c pre), post. rewrite app_cons, H. reflexivity.
    + intros (pre & post & H). destruct pre as [|x pre].
      * left. exists post. exact H.
      * right. rewrite app_cons in H. injection H as _ H.
        exists pre, post. exact H.
Qed.

(** [kw in q.lower()] for a lower-case keyword is the occurrence of
    [kw] in [q] with case ignored. *)
Lemma contains_lower kw q :
  lower kw = kw ->
  contains kw (lower q) = true <-> occurs_ignoring_case kw q.
Proof.
  intros Hkw. rewrite contains_spec. unfold occurs_ignoring_case. split.
  - intros (pre & post & H).
    destruct (lower_split _ _ _ H) as (pre' & rest & -> & Hpre & Hrest).
    destruct (lower_split _ _ _ Hrest) as (mid & post' & -> & Hmid & Hpost).
    exists pre', mid, post'. split; [reflexivity | congruence].
  - intros (pre & mid & post & -> & Hmid).
    exists (lower pre), (lower post).
    rewrite !lower_app, Hmid, Hkw. reflexivity.
Qed.

Lemma any_in_lower keywords q :
  Forall (fun kw => lower kw = kw) keywords ->
  any_in keywords (lower q) = true <-> mentions keywords q.
Proof.
  intros Hlow. unfold any_in, mentions. rewrite existsb_exists.
  rewrite Forall_forall in Hlow. split.
  - intros (kw & Hin & Hc). exists kw. split.
    + apply list_elem_of_In, Hin.
    + apply contains_lower; [apply Hlow, list_elem_of_In, Hin | exact Hc].
  - intros (kw & Hin & Hc). exists kw. split.
    + apply list_elem_of_In, Hin.
    + apply contains_lower; [apply Hlow, Hin | exact Hc].
Qed.

Lemma any_in_lower_false keywords q :
  Forall (fun kw => lower kw = kw) keywords ->
  any_in keywords (lower q) = false <-> ~ mentions keywords q.
Proof.
  intros Hlow. rewrite <- (any_in_lower _ _ Hlow).
  destruct (any_in keywords (lower q)); split; congruence.
Qed.

End PyStrFacts.

(** ** Rounding *)

Module PyFloatFacts.
Import PyFloat.

Lemma nearest_even_le num den K :
  (0 < den)%Z -> (num <= K * den)%Z -> (nearest_even num den <= K)%Z.
Proof.
  intros Hden Hle. unfold nearest_even.
  pose proof (Z.div_mod num den ltac:(lia)) as Hdm.
  pose proof (Z.mod_pos_bound num den Hden) as Hr.
  destruct (2 * (num mod den) <? den)%Z eqn:E1.
  - nia.
  - apply Z.ltb_ge in E1.
    assert (num / den < K)%Z by nia.
    destruct (den <? 2 * (num mod den))%Z; [lia|].
    destruct (Z.even (num / den)); lia.
Qed.

Lemma nearest_even_nonneg num den :
  (0 <= num)%Z -> (0 < den)%Z -> (0 <= nearest_even num den)%Z.
Proof.
  intros Hn Hd. unfold nearest_even.
  pose proof (Z.div_pos num den Hn Hd).
  destruct (2 * (num mod den) <? den)%Z; [lia|].
  destruct (den <? 2 * (num mod den))%Z; [lia|].
  destruct (Z.even (num / den)); lia.
Qed.

Lemma ilog2_le n d b :
  (0 <= b)%Z -> (Zpos n <= Zpos d * 2 ^ b)%Z -> (ilog2 n d <= b)%Z.
Proof.
  intros Hb Hle.
  assert (Hk : (Z.log2 (Zpos n) - Z.log2 (Zpos d) <= b)%Z).
  { apply Z.log2_le_mono in Hle.
    rewrite Z.log2_mul_pow2 in Hle by lia. lia. }
  unfold ilog2.
  destruct (0 <=? Z.log2 (Z.pos n) - Z.log2 (Z.pos d))%Z.
  - destruct (_ <=? _)%Z; lia.
  - destruct (_ <=? _)%Z; lia.
Qed.

(** Rounding does not cross a small integer: such an integer is a
    multiple of the unit in the last place of everything below it. *)
Lemma round_pos_range n d B :
  (0 < B <= 128)%Z -> (Zpos n <= B * Zpos d)%Z ->
  (0 <= round_pos n d <= inject_Z B)%Q.
Proof.
  intros HB Hle.
  assert (Hlog : (ilog2 n d <= 7)%Z).
  { apply ilog2_le; [lia|]. change (2 ^ 7)%Z with 128%Z. nia. }
  unfold round_pos, prec, emin.
  set (e := Z.max (-1074) (ilog2 n d - (53 - 1))).
  assert (He : (e < 0)%Z) by lia.
  destruct (0 <=? e)%Z eqn:E; [apply Z.leb_le in E; lia|].
  assert (Hp : (0 < 2 ^ (- e))%Z) by (apply Z.pow_pos_nonneg; lia).
  unfold Qle, inject_Z. cbn [Qnum Qden]. rewrite Z2Pos.id by exact Hp.
  generalize dependent (2 ^ (- e))%Z. intros p Hp. split.
  - rewrite Z.mul_0_l, Z.mul_1_r. apply nearest_even_nonneg; [|lia].
    apply Z.mul_nonneg_nonneg; lia.
  - rewrite Z.mul_1_r. apply nearest_even_le; [lia|].
    rewrite <- Z.mul_assoc, (Z.mul_comm p), Z.mul_assoc.
    apply Z.mul_le_mono_nonneg_r; lia.
Qed.

Lemma round_range x B :
  (0 < B <= 128)%Z -> (0 <= x <= inject_Z B)%Q ->
  (0 <= round x <= inject_Z B)%Q.
Proof.
  intros HB [H0 Hx]. destruct x as [num den]. unfold round.
  unfold Qle, inject_Z in H0, Hx. cbn [Qnum Qden] in *.
  destruct num as [|n|n].
  - unfold Qle. cbn. lia.
  - apply round_pos_range; [exact HB | lia].
  - lia.
Qed.

(** [round] against the Standard Library's binary64 on quotients with
    and without ties, and the whole of [a / b * 100]. *)
Lemma round_agrees_with_binary64 :
  forallb (fun p : Z * Z =>
             Qeq_bool (fmul (fdiv (inject_Z (fst p)) (inject_Z (snd p))) 100)
                      (SF_percent (fst p) (snd p)))
          [(1, 2); (1, 3); (2, 3); (1, 7); (5, 9); (7, 7); (0, 4); (29, 30);
           (3, 1000); (123456789, 987654321); (1, 9007199254740992)]%Z
  = true.
Proof. vm_compute. reflexivity. Qed.

End PyFloatFacts.

(** ** The risk screener *)

Module RiskFacts.
Import PyStr PyStrFacts RiskModel.

Lemma emergency_lower : Forall (fun kw => lower kw = kw) emergency_keywords.
Proof. repeat constructor. Qed.

Lemma diagnostic_lower : Forall (fun kw => lower kw = kw) diagnostic_keywords.
Proof. repeat constructor. Qed.

Lemma treatment_lower : Forall (fun kw => lower kw = kw) treatment_keywords.
Proof. repeat constructor. Qed.

Lemma emergency_iff q :
  any_in emergency_keywords (lower q) = true <-> mentions emergency_keywords q.
Proof. apply any_in_lower, emergency_lower. Qed.

(** The critical branch: one warning, nothing else looked at. *)
Lemma check_emergency q :
  mentions emergency_keywords q ->
  check_query_safety q = mkRisk false [emergency_warning] "critical".
Proof.
  intros H. apply emergency_iff in H.
  unfold check_query_safety. rewrite H. reflexivity.
Qed.

(** [safe] is only cleared by the critical branch. *)
Lemma unsafe_is_emergency q :
  safe (check_query_safety q) = false ->
  check_query_safety q = mkRisk false [emergency_warning] "critical".
Proof.
  unfold check_query_safety.
  destruct (any_in emergency_keywords (lower q)); [reflexivity|].
  destruct (any_in diagnostic_keywords (lower q)),
           (any_in treatment_keywords (lower q)); discriminate.
Qed.

Lemma safe_iff_no_emergency q :
  safe (check_query_safety q) = true <-> ~ mentions emergency_keywords q.
Proof.
  rewrite <- any_in_lower_false by apply emergency_lower.
  unfold check_query_safety.
  destruct (any_in emergency_keywords (lower q)); [split; discriminate|].
  destruct (any_in diagnostic_keywords (lower q)),
           (any_in treatment_keywords (lower q)); split; reflexivity.
Qed.

(** C6. A query with no emergency keyword that matches a treatment
    phrase is safe and of medium risk: when it also matches a diagnostic
    phrase the diagnostic warning comes first and the treatment caution
    second, the tier set last (medium) being the one returned; when it
    matches no diagnostic phrase the treatment caution is the only
    warning. *)
Theorem C6_treatment_tier_wins q :
  ~ mentions emergency_keywords q ->
  mentions treatment_keywords q ->
  (mentions diagnostic_keywords q ->
     check_query_safety q
     = mkRisk true [diagnostic_warning; treatment_warning] "medium")
  /\ (~ mentions diagnostic_keywords q ->
     check_query_safety q = mkRisk true [treatment_warning] "medium").
Proof.
  intros Hem Htr.
  apply any_in_lower_false in Hem; [|apply emergency_lower].
  apply any_in_lower in Htr; [|apply treatment_lower].
  unfold check_query_safety. rewrite Hem, Htr. split; intros Hd.
  - apply any_in_lower in Hd; [|apply diagnostic_lower].
    rewrite Hd. reflexivity.
  - apply any_in_lower_false in Hd; [|apply diagnostic_lower].
    rewrite Hd. reflexivity.
Qed.

(** Scenario A of the specification, and a query with both intents. *)
Lemma C6_witness :
  check_query_safety "What is the dosage for metformin?"
  = mkRisk true [treatment_warning] "medium"
  /\ check_query_safety "Do I have diabetes and how much insulin is needed?"
     = mkRisk true [diagnostic_warning; treatment_warning] "medium".
Proof.
  split.
  - apply (C6_treatment_tier_wins "What is the dosage for metformin?").
    + apply any_in_lower_false; [apply emergency_lower | reflexivity].
    + apply any_in_lower; [apply treatment_lower | reflexivity].
    + apply any_in_lower_false; [apply diagnostic_lower | reflexivity].
  - apply (C6_treatment_tier_wins
             "Do I have diabetes and how much insulin is needed?").
    + apply any_in_lower_false; [apply emergency_lower | reflexivity].
    + apply any_in_lower; [apply treatment_lower | reflexivity].
    + apply any_in_lower; [apply diagnostic_lower | reflexivity].
Defined.

End RiskFacts.

(** ** The orchestrator *)

Module PipelineFacts.
Import PyStr PyStrFacts PyRe RiskModel RiskFacts RagPipeline.

(** *** The list comprehension of [retrieve_documents] *)

Lemma passes_iff threshold d :
  passes threshold d = true <-> (threshold <= similarity_score d)%Q.
Proof. apply Qle_bool_iff. Qed.

Lemma filter_retained threshold results :
  retained threshold results (List.filter (passes threshold) results).
Proof.
  induction results as [|d results IH]; simpl.
  - constructor.
  - destruct (passes threshold d) eqn:E.
    + apply retained_keep; [apply passes_iff, E | exact IH].
    + apply retained_drop; [|exact IH].
      intros H. apply passes_iff in H. congruence.
Qed.

Lemma retained_filter threshold results kept :
  retained threshold results kept ->
  kept = List.filter (passes threshold) results.
Proof.
  induction 1 as [|d results kept Hd _ IH|d results kept Hd _ IH]; simpl.
  - reflexivity.
  - apply passes_iff in Hd. rewrite Hd, IH. reflexivity.
  - destruct (passes threshold d) eqn:E; [|exact IH].
    apply passes_iff in E. contradiction.
Qed.

Lemma retained_sublist threshold results kept :
  retained threshold results kept -> sublist kept results.
Proof. induction 1; constructor; assumption. Qed.

Lemma retained_elem threshold results kept :
  retained threshold results kept ->
  forall d, d ∈ kept <-> d ∈ results /\ (threshold <= similarity_score d)%Q.
Proof.
  induction 1 as [|x results kept Hx _ IH|x results kept Hx _ IH]; intros d.
  - split; [intros H; inversion H | intros [H _]; inversion H].
  - rewrite !elem_of_cons, IH. split.
    + intros [->|[? ?]]; auto.
    + intros [[->|?] ?]; auto.
  - rewrite elem_of_cons, IH. split.
    + intros [? ?]; auto.
    + intros [[->|?] ?]; [contradiction | auto].
Qed.

Section Orchestrator.
Context {World : Type}.
Variable vector_db_search :
  string -> Z -> World -> Outcome (list Document) * World.
Variable llm_generate_content :
  string -> World -> Outcome string * World.

Local Abbreviation State := (@State World).
Local Abbreviation retrieve_documents :=
  (retrieve_documents vector_db_search).
Local Abbreviation generate_answer :=
  (generate_answer llm_generate_content).
Local Abbreviation query := (query vector_db_search llm_generate_content).
Local Abbreviation batch_query :=
  (batch_query vector_db_search llm_generate_content).

Lemma retrieve_documents_returns q st results w :
  vector_db_search q (top_k (self st)) (world st) = (Returns results, w) ->
  retrieve_documents q st
  = (Returns (List.filter (passes (similarity_threshold (self st))) results),
     searched q w st).
Proof.
  intros H. unfold RagPipeline.retrieve_documents, bind, get_self,
    call_search, ret. simpl. rewrite H. reflexivity.
Qed.

Lemma retrieve_documents_raises q st e w :
  vector_db_search q (top_k (self st)) (world st) = (Raises e, w) ->
  retrieve_documents q st = (Raises e, searched q w st).
Proof.
  intros H. unfold RagPipeline.retrieve_documents, bind, get_self,
    call_search, ret. simpl. rewrite H. reflexivity.
Qed.

Lemma generate_answer_returns q context st text w :
  llm_generate_content (create_prompt q context) (world st)
  = (Returns text, w) ->
  generate_answer q context st
  = (Returns text, generated (create_prompt q context) w st).
Proof.
  intros H. unfold RagPipeline.generate_answer, try_except, bind,
    call_generate, ret. rewrite H. reflexivity.
Qed.

Lemma generate_answer_raises q context st e w :
  llm_generate_content (create_prompt q context) (world st)
  = (Raises e, w) ->
  generate_answer q context st
  = (Returns ("Error generating answer: " +:+ exn_msg e),
     generated (create_prompt q context) w st).
Proof.
  intros H. unfold RagPipeline.generate_answer, try_except, bind,
    call_generate, ret. rewrite H. reflexivity.
Qed.

(** The blocked path of [query]: the dictionary of the first
    [return], the state untouched. *)
Lemma query_blocked q st :
  safe (check_query_safety q) = false ->
  query q st
  = (Returns (<["question" := VStr q]>
             (<["answer" := VStr emergency_warning]>
             (<["citations" := VCitations ∅]>
             (<["sources" := VDocs []]>
             (<["risk_level" := VStr "critical"]>
             (<["safe" := VBool false]> ∅)))))), st).
Proof.
  intros H. apply unsafe_is_emergency in H.
  unfold RagPipeline.query. rewrite H. reflexivity.
Qed.

Lemma query_search_raises q st e w :
  safe (check_query_safety q) = true ->
  vector_db_search q (top_k (self st)) (world st) = (Raises e, w) ->
  query q st = (Raises e, searched q w st).
Proof.
  intros Hs H. unfold RagPipeline.query. rewrite Hs. simpl.
  unfold bind at 1. rewrite (retrieve_documents_raises _ _ _ _ H).
  reflexivity.
Qed.

Lemma query_empty q st results w :
  safe (check_query_safety q) = true ->
  vector_db_search q (top_k (self st)) (world st) = (Returns results, w) ->
  List.filter (passes (similarity_threshold (self st))) results = [] ->
  query q st = (Returns (empty_result q), searched q w st).
Proof.
  intros Hs H Hf. unfold RagPipeline.query. rewrite Hs. simpl.
  unfold bind at 1. rewrite (retrieve_documents_returns _ _ _ _ H), Hf.
  reflexivity.
Qed.

Lemma query_generated q st results w d kept out w' :
  safe (check_query_safety q) = true ->
  vector_db_search q (top_k (self st)) (world st) = (Returns results, w) ->
  List.filter (passes (similarity_threshold (self st))) results
  = d :: kept ->
  llm_generate_content (create_prompt q (format_context (d :: kept))) w
  = (out, w') ->
  query q st
  = (Returns (generated_result q (answer_of out) (d :: kept)),
     counted (generated (create_prompt q (format_context (d :: kept))) w'
                (searched q w st))).
Proof.
  intros Hs H Hf Hg. unfold RagPipeline.query. rewrite Hs. simpl.
  unfold bind at 1. rewrite (retrieve_documents_returns _ _ _ _ H), Hf.
  unfold bind at 1.
  destruct out as [text|e].
  - rewrite (generate_answer_returns _ _ (searched q w st) text w' Hg).
    reflexivity.
  - rewrite (generate_answer_raises _ _ (searched q w st) e w' Hg).
    reflexivity.
Qed.

(** C2. A query in which an emergency keyword occurs, case ignored,
    is assessed unsafe and critical with the emergency warning as its
    only warning, whatever else it contains; [query] then returns the
    blocked dictionary (no citations, no sources) and leaves the
    state as it was: neither oracle has been called. *)
Theorem C2_emergency_blocks_before_retrieval q st :
  mentions emergency_keywords q ->
  check_query_safety q = mkRisk false [emergency_warning] "critical"
  /\ exists r,
       query q st = (Returns r, st)
       /\ r !! "answer" = Some (VStr emergency_warning)
       /\ r !! "citations" = Some (VCitations ∅)
       /\ r !! "sources" = Some (VDocs [])
       /\ r !! "risk_level" = Some (VStr "critical")
       /\ r !! "safe" = Some (VBool false).
Proof.
  intros H. pose proof (check_emergency q H) as Hc.
  split; [exact Hc|].
  eexists. split.
  - apply query_blocked. rewrite Hc. reflexivity.
  - repeat split.
Qed.

(** C10. When [check_query_safety] returns [safe = false] its
    warnings are the one-element list holding the emergency warning,
    so the read of [warnings[0]] on the blocked path returns that
    warning and raises nothing, and it is the answer of the blocked
    result. *)
Theorem C10_unsafe_has_first_warning q st :
  safe (check_query_safety q) = false ->
  warnings (check_query_safety q) = [emergency_warning]
  /\ first (warnings (check_query_safety q)) st
     = (Returns emergency_warning, st)
  /\ exists r,
       query q st = (Returns r, st)
       /\ r !! "answer" = Some (VStr emergency_warning).
Proof.
  intros H. pose proof (unsafe_is_emergency q H) as Hc.
  rewrite Hc. repeat split.
  eexists. split; [apply query_blocked, H | reflexivity].
Qed.

(** C3. When the oracle returns [results], [retrieve_documents]
    returns the documents of [results] whose similarity score is at
    least the threshold and no others, each as often and in the order
    in which the oracle gave them; a document whose score equals the
    threshold is among them. *)
Theorem C3_retrieve_keeps_at_or_above_threshold q st results w :
  vector_db_search q (top_k (self st)) (world st) = (Returns results, w) ->
  exists kept,
    retrieve_documents q st = (Returns kept, searched q w st)
    /\ retained (similarity_threshold (self st)) results kept
    /\ (forall kept',
          retained (similarity_threshold (self st)) results kept' ->
          kept' = kept)
    /\ sublist kept results
    /\ (forall d,
          d ∈ kept <->
          d ∈ results
          /\ (similarity_threshold (self st) <= similarity_score d)%Q)
    /\ (forall d,
          d ∈ results ->
          (similarity_score d == similarity_threshold (self st))%Q ->
          d ∈ kept).
Proof.
  intros H.
  pose proof (filter_retained (similarity_threshold (self st)) results)
    as Hr.
  eexists. split; [apply retrieve_documents_returns, H|].
  split; [exact Hr|]. split; [|split; [|split]].
  - intros kept' Hk. apply retained_filter, Hk.
  - eapply retained_sublist, Hr.
  - apply retained_elem, Hr.
  - intros d Hd Heq. apply (retained_elem _ _ _ Hr). split; [exact Hd|].
    apply Qle_lteq. right. symmetry. exact Heq.
Qed.

(** C7. When the query is not blocked and the retrieval step returns
    the empty list, [query] returns the fixed answer with no
    citations, no sources and [num_sources = 0], in the state in
    which the retrieval step ended: the log of that state is the old
    log followed by the one search call, so the model has not been
    called. *)
Theorem C7_empty_retrieval_short_circuits q st st' :
  safe (check_query_safety q) = true ->
  retrieve_documents q st = (Returns [], st') ->
  exists r,
    query q st = (Returns r, st')
    /\ r !! "answer" = Some (VStr "No relevant medical literature found.")
    /\ r !! "citations" = Some (VCitations ∅)
    /\ r !! "sources" = Some (VDocs [])
    /\ r !! "num_sources" = Some (VInt 0)
    /\ calls st' = (calls st ++ [SearchCall q (top_k (self st))])%list
    /\ forall prompt,
         GenerateCall prompt ∈ calls st' -> GenerateCall prompt ∈ calls st.
Proof.
  intros Hs Hr.
  destruct (vector_db_search q (top_k (self st)) (world st))
    as [[results|e] w] eqn:E.
  - rewrite (retrieve_documents_returns _ _ _ _ E) in Hr.
    injection Hr as Hf <-.
    exists (empty_result q). split; [apply (query_empty _ _ _ _ Hs E Hf)|].
    repeat split. simpl. intros prompt Hin.
    apply elem_of_app in Hin as [Hin|Hin]; [exact Hin|].
    apply list_elem_of_singleton in Hin. discriminate.
  - rewrite (retrieve_documents_raises _ _ _ _ E) in Hr. discriminate.
Qed.

(** C8. When the model raises an exception, [generate_answer] returns
    the text "Error generating answer: " followed by the message of
    the exception, and raises nothing; a query that got as far as
    generation then still returns its dictionary, with that text as
    the answer next to the question, the retrieved sources and the
    citations extracted from the text. *)
Theorem C8_generation_failure_is_an_answer q :
  (forall context st e w,
     llm_generate_content (create_prompt q context) (world st)
     = (Raises e, w) ->
     generate_answer q context st
     = (Returns ("Error generating answer: " +:+ exn_msg e),
        generated (create_prompt q context) w st))
  /\ (forall st results w d kept e w',
     safe (check_query_safety q) = true ->
     vector_db_search q (top_k (self st)) (world st)
     = (Returns results, w) ->
     List.filter (passes (similarity_threshold (self st))) results
     = d :: kept ->
     llm_generate_content (create_prompt q (format_context (d :: kept))) w
     = (Raises e, w') ->
     exists r st',
       query q st = (Returns r, st')
       /\ r !! "question" = Some (VStr q)
       /\ r !! "answer"
          = Some (VStr ("Error generating answer: " +:+ exn_msg e))
       /\ r !! "sources" = Some (VDocs (d :: kept))
       /\ r !! "citations"
          = Some (VCitations
                    (extract_citations
                       ("Error generating answer: " +:+ exn_msg e)
                       (d :: kept)))).
Proof.
  split.
  - intros context st e w H. apply generate_answer_raises, H.
  - intros st results w d kept e w' Hs Hr Hf Hg.
    do 2 eexists. split; [apply (query_generated _ _ _ _ _ _ _ _ Hs Hr Hf Hg)|].
    repeat split.
Qed.

(** Every path of [query], one case each. *)
Lemma query_paths q st :
  (safe (check_query_safety q) = false
   /\ query q st
      = (Returns (<["question" := VStr q]>
                 (<["answer" := VStr emergency_warning]>
                 (<["citations" := VCitations ∅]>
                 (<["sources" := VDocs []]>
                 (<["risk_level" := VStr "critical"]>
                 (<["safe" := VBool false]> ∅)))))), st))
  \/ (exists e w,
        safe (check_query_safety q) = true
        /\ vector_db_search q (top_k (self st)) (world st) = (Raises e, w)
        /\ query q st = (Raises e, searched q w st))
  \/ (exists w,
        safe (check_query_safety q) = true
        /\ query q st = (Returns (empty_result q), searched q w st))
  \/ (exists w d kept out w',
        safe (check_query_safety q) = true
        /\ query q st
           = (Returns (generated_result q (answer_of out) (d :: kept)),
              counted (generated
                         (create_prompt q (format_context (d :: kept)))
                         w' (searched q w st)))).
Proof.
  destruct (safe (check_query_safety q)) eqn:Hs.
  - right.
    destruct (vector_db_search q (top_k (self st)) (world st))
      as [[results|e] w] eqn:E.
    + right.
      destruct (List.filter (passes (similarity_threshold (self st)))
                  results) as [|d kept] eqn:Hf.
      * left. exists w. split; [reflexivity|].
        apply (query_empty _ _ _ _ Hs E Hf).
      * right.
        destruct (llm_generate_content
                    (create_prompt q (format_context (d :: kept))) w)
          as [out w'] eqn:Hg.
        exists w, d, kept, out, w'. split; [reflexivity|].
        apply (query_generated _ _ _ _ _ _ _ _ Hs E Hf Hg).
    + left. exists e, w. split; [reflexivity|]. split; [reflexivity|].
      apply (query_search_raises _ _ _ _ Hs E).
  - left. split; [reflexivity|]. apply query_blocked, Hs.
Qed.

(** C1 (amended). [query] either returns a dictionary, or raises the
    exception that the retrieval oracle raised; an exception of the
    model never leaves it. The dictionary has the fields question,
    answer, citations and sources on every path, and risk_level and
    safe as well when the query was blocked. *)
Theorem C1_query_returns_core_fields_or_retrieval_fault q st :
  (exists r st',
     query q st = (Returns r, st')
     /\ has_fields
          (if safe (check_query_safety q)
           then ["question"; "answer"; "citations"; "sources"]
           else ["question"; "answer"; "citations"; "sources";
                 "risk_level"; "safe"]) r = true)
  \/ (exists e w,
        safe (check_query_safety q) = true
        /\ vector_db_search q (top_k (self st)) (world st) = (Raises e, w)
        /\ query q st = (Raises e, searched q w st)).
Proof.
  destruct (query_paths q st)
    as [[Hs H]|[(e & w & Hs & E & H)|[(w & Hs & H)
        |(w & d & kept & out & w' & Hs & H)]]].
  - left. do 2 eexists. split; [exact H|]. rewrite Hs. reflexivity.
  - right. exists e, w. auto.
  - left. do 2 eexists. split; [exact H|]. rewrite Hs. reflexivity.
  - left. do 2 eexists. split; [exact H|]. rewrite Hs. reflexivity.
Qed.

(** What one call of [query] does to the pipeline object. *)
Lemma query_self q st out st' :
  query q st = (out, st') ->
  self st'
  = with_query_count
      (query_count (self st)
       + match out with
         | Returns r => if fully_generated r then 1 else 0
         | Raises _ => 0
         end)
      (self st).
Proof.
  intros Hq.
  assert (Hid : forall p, p = with_query_count (query_count p + 0) p).
  { intros [????????]. unfold with_query_count. simpl.
    rewrite Z.add_0_r. reflexivity. }
  destruct (query_paths q st)
    as [[Hs H]|[(e & w & Hs & E & H)|[(w & Hs & H)
        |(w & d & kept & o & w' & Hs & H)]]];
    rewrite H in Hq; injection Hq as <- <-.
  - apply Hid.
  - apply Hid.
  - apply Hid.
  - reflexivity.
Qed.

Lemma batch_query_nil st : batch_query [] st = (Returns [], st).
Proof. reflexivity. Qed.

Lemma batch_query_cons q rest st r st1 rs st2 :
  query q st = (Returns r, st1) ->
  batch_query rest st1 = (Returns rs, st2) ->
  batch_query (q :: rest) st = (Returns (r :: rs), st2).
Proof.
  intros Hq Hb. cbn [RagPipeline.batch_query]. unfold bind at 1.
  rewrite Hq. unfold bind at 1. rewrite Hb. reflexivity.
Qed.

Lemma batch_query_raises q rest st e st1 :
  query q st = (Raises e, st1) ->
  batch_query (q :: rest) st = (Raises e, st1).
Proof.
  intros Hq. cbn [RagPipeline.batch_query]. unfold bind at 1.
  rewrite Hq. reflexivity.
Qed.

Lemma batch_query_cons_raises q rest st r st1 e st2 :
  query q st = (Returns r, st1) ->
  batch_query rest st1 = (Raises e, st2) ->
  batch_query (q :: rest) st = (Raises e, st2).
Proof.
  intros Hq Hb. cbn [RagPipeline.batch_query]. unfold bind at 1.
  rewrite Hq. unfold bind at 1. rewrite Hb. reflexivity.
Qed.



End Orchestrator.

(** *** The theorems at the scenarios of the specification *)

Import Examples.

(** Scenario B: the emergency query never reaches the collaborators. *)
Lemma C2_witness :
  check_query_safety query_B = mkRisk false [emergency_warning] "critical"
  /\ exists r,
       query (search_fixed [doc111]) (generate_fixed answer_D) query_B fresh
       = (Returns r, fresh)
       /\ r !! "citations" = Some (VCitations ∅)
       /\ r !! "sources" = Some (VDocs []).
Proof.
  destruct (C2_emergency_blocks_before_retrieval
              (search_fixed [doc111]) (generate_fixed answer_D)
              query_B fresh) as (Hc & r & Hq & _ & Hcit & Hsrc & _).
  - exists "dying". split.
    + unfold emergency_keywords. do 2 apply list_elem_of_further.
      apply list_elem_of_here.
    + exists "I think I am ", "dying", ", severe pain".
      split; reflexivity.
  - split; [exact Hc|]. exists r. auto.
Defined.

Lemma C10_witness :
  first (World := nat) (warnings (check_query_safety query_B)) fresh
  = (Returns emergency_warning, fresh).
Proof.
  apply (C10_unsafe_has_first_warning
           (search_fixed [doc111]) (generate_fixed answer_D) query_B fresh).
  reflexivity.
Defined.

(** Scenario C, with a document that sits on the threshold. *)
Lemma C3_witness :
  exists kept,
    retrieve_documents (search_fixed [doc111; doc_at_threshold; doc333])
      query_A fresh
    = (Returns kept, searched query_A 1%nat fresh)
    /\ doc_at_threshold ∈ kept
    /\ ~ doc333 ∈ kept.
Proof.
  destruct (C3_retrieve_keeps_at_or_above_threshold
              (search_fixed [doc111; doc_at_threshold; doc333])
              query_A fresh [doc111; doc_at_threshold; doc333] 1%nat
              eq_refl) as (kept & Hr & _ & _ & _ & Hiff & Heq).
  exists kept. split; [exact Hr|]. split.
  - apply Heq; [|reflexivity].
    apply list_elem_of_further, list_elem_of_here.
  - intros H. apply Hiff in H as [_ H]. vm_compute in H. apply H. reflexivity.
Defined.

(** Scenario E: nothing above the threshold. *)
Lemma C7_witness :
  exists r,
    query (search_fixed [doc333]) (generate_fixed answer_D) query_A fresh
    = (Returns r, searched query_A 1%nat fresh)
    /\ r !! "answer" = Some (VStr "No relevant medical literature found.")
    /\ r !! "num_sources" = Some (VInt 0).
Proof.
  destruct (C7_empty_retrieval_short_circuits
              (search_fixed [doc333]) (generate_fixed answer_D)
              query_A fresh (searched query_A 1%nat fresh))
    as (r & Hq & Ha & _ & _ & Hn & _).
  - reflexivity.
  - reflexivity.
  - exists r. auto.
Defined.

(** The model is out of quota: the message becomes the answer. *)
Lemma C8_witness :
  exists r st',
    query (search_fixed [doc111]) generate_quota query_A fresh
    = (Returns r, st')
    /\ r !! "answer"
       = Some (VStr "Error generating answer: 429 quota exceeded").
Proof.
  destruct (C8_generation_failure_is_an_answer
              (search_fixed [doc111]) generate_quota query_A) as [_ H].
  destruct (H fresh [doc111] 1%nat doc111 []
              (mkExn "ResourceExhausted" "429 quota exceeded") 2%nat)
    as (r & st' & Hq & _ & Ha & _); try reflexivity.
  exists r, st'. auto.
Defined.


(** *** Where the code departs from the claims as stated *)

(** C1 as stated fails: the result of a blocked query and the result
    of a query without literature are not structurally complete, and an
    exception of the vector database leaves [query]. *)
Lemma C1_counterexample :
  (exists r st',
     query (search_fixed [doc111]) (generate_fixed answer_D) query_B fresh
     = (Returns r, st')
     /\ r !! "citation_accuracy" = None
     /\ r !! "transparency_score" = None
     /\ structurally_complete r = false)
  /\ (exists r st',
     query (search_fixed [doc333]) (generate_fixed answer_D) query_A fresh
     = (Returns r, st')
     /\ r !! "risk_level" = None
     /\ r !! "safe" = None
     /\ structurally_complete r = false)
  /\ (exists e st',
     query search_not_loaded (generate_fixed answer_D) query_A fresh
     = (Raises e, st')).
Proof.
  split; [|split].
  - do 2 eexists. split; [apply query_blocked; reflexivity|].
    split; [|split]; vm_compute; reflexivity.
  - do 2 eexists. split; [eapply query_empty; reflexivity|].
    split; [|split]; vm_compute; reflexivity.
  - do 2 eexists. eapply query_search_raises; reflexivity.
Qed.


End PipelineFacts.


(** ** Citations *)

Module CitationFacts.
Import PyRe TrustModel RagPipeline.

Lemma find_pmid_some documents p doc :
  List.find (fun d => bool_decide (pmid d = p)) documents = Some doc ->
  doc ∈ documents /\ pmid doc = p.
Proof.
  intros H. apply find_some in H as [Hin Hp].
  split; [apply list_elem_of_In, Hin | apply bool_decide_eq_true in Hp; exact Hp].
Qed.

Lemma find_pmid_none documents p :
  List.find (fun d => bool_decide (pmid d = p)) documents = None <->
  forall d, d ∈ documents -> pmid d <> p.
Proof.
  split.
  - intros H d Hin. apply list_elem_of_In in Hin.
    apply (find_none _ _ H) in Hin. apply bool_decide_eq_false in Hin.
    exact Hin.
  - intros H.
    destruct (List.find (fun d => bool_decide (pmid d = p)) documents)
      as [doc|] eqn:E; [|reflexivity].
    apply find_pmid_some in E as [Hin Hp]. destruct (H doc Hin Hp).
Qed.

(** The loop of [extract_citations], read at one key. *)
Lemma foldl_cite_lookup documents p l : forall acc,
  foldl (cite documents) acc l !! p
  = match (if decide (p ∈ l)
           then List.find (fun d => bool_decide (pmid d = p)) documents
           else None) with
    | Some doc => Some (citation_of p doc)
    | None => acc !! p
    end.
Proof.
  induction l as [|x l IH]; intros acc; simpl.
  - destruct (decide (p ∈ [])) as [H|_]; [inversion H | reflexivity].
  - rewrite IH. destruct (decide (x = p)) as [->|Hne].
    + rewrite (decide_True (P := p ∈ p :: l)) by apply list_elem_of_here.
      unfold cite.
      destruct (List.find (fun d => bool_decide (pmid d = p)) documents)
        as [doc|] eqn:E.
      * rewrite lookup_insert_eq. destruct (decide (p ∈ l)); reflexivity.
      * destruct (decide (p ∈ l)); reflexivity.
    + assert (Hl : cite documents acc x !! p = acc !! p).
      { unfold cite.
        destruct (List.find (fun d => bool_decide (pmid d = x)) documents);
          [apply lookup_insert_ne, Hne | reflexivity]. }
      rewrite Hl.
      destruct (decide (p ∈ l)) as [Hin|Hnin].
      * rewrite (decide_True (P := p ∈ x :: l))
          by (apply list_elem_of_further, Hin). reflexivity.
      * rewrite (decide_False (P := p ∈ x :: l)); [reflexivity|].
        intros H. apply elem_of_cons in H as [->|H]; [congruence | auto].
Qed.

Lemma extract_citations_lookup answer documents p :
  extract_citations answer documents !! p
  = if decide (p ∈ findall_pmid answer)
    then citation_of p
           <$> List.find (fun d => bool_decide (pmid d = p)) documents
    else None.
Proof.
  unfold extract_citations. rewrite foldl_cite_lookup, lookup_empty.
  destruct (decide (p ∈ findall_pmid answer)) as [Hin|Hnin].
  - rewrite decide_True by (apply elem_of_elements, elem_of_list_to_set, Hin).
    destruct (List.find _ documents); reflexivity.
  - rewrite decide_False; [reflexivity|].
    intros H. apply elem_of_elements, elem_of_list_to_set in H. auto.
Qed.

Lemma invalid_citations_elem answer documents p :
  p ∈ invalid_citations (verify_citations answer documents) <->
  p ∈ findall_pmid answer /\ forall d, d ∈ documents -> pmid d <> p.
Proof.
  unfold verify_citations. simpl.
  rewrite elem_of_elements, elem_of_difference, !elem_of_list_to_set.
  rewrite list_elem_of_fmap. split.
  - intros [Hc Hn]. split; [exact Hc|]. intros d Hd Hp. apply Hn.
    exists d. auto.
  - intros [Hc Hn]. split; [exact Hc|]. intros (d & Hp & Hd).
    apply (Hn d Hd). auto.
Qed.

(** C4. A key [p] of the mapping returned by [extract_citations] is
    the pmid of a document of the list (and was extracted from the
    answer); an extracted pmid that no document carries is not a key;
    an extracted pmid that some document carries is a key; and the
    [invalid_citations] of [verify_citations] are the extracted pmids
    that no document carries. *)
Theorem C4_citation_keys_are_source_pmids answer documents p :
  (forall c,
     extract_citations answer documents !! p = Some c ->
     c_pmid c = p
     /\ p ∈ findall_pmid answer
     /\ exists d, d ∈ documents /\ pmid d = p)
  /\ (p ∈ findall_pmid answer ->
      (forall d, d ∈ documents -> pmid d <> p) ->
      extract_citations answer documents !! p = None)
  /\ (p ∈ findall_pmid answer ->
      (exists d, d ∈ documents /\ pmid d = p) ->
      is_Some (extract_citations answer documents !! p))
  /\ (p ∈ invalid_citations (verify_citations answer documents) <->
      p ∈ findall_pmid answer /\ forall d, d ∈ documents -> pmid d <> p).
Proof.
  rewrite extract_citations_lookup.
  split; [|split; [|split]].
  - intros c H. destruct (decide (p ∈ findall_pmid answer)); [|discriminate].
    destruct (List.find _ documents) as [doc|] eqn:E; [|discriminate].
    injection H as <-. apply find_pmid_some in E. simpl. eauto.
  - intros Hin Hn. rewrite decide_True by exact Hin.
    apply find_pmid_none in Hn. rewrite Hn. reflexivity.
  - intros Hin (d & Hd & Hp). rewrite decide_True by exact Hin.
    destruct (List.find _ documents) as [doc|] eqn:E; [eexists; reflexivity|].
    destruct (proj1 (find_pmid_none _ _) E d Hd Hp).
  - apply invalid_citations_elem.
Qed.

(** Scenario D of the specification. *)
Lemma C4_witness :
  (extract_citations Examples.answer_D [Examples.doc111] !! "999" = None
   /\ is_Some (extract_citations Examples.answer_D [Examples.doc111] !! "111"))
  /\ "999" ∈ invalid_citations
               (verify_citations Examples.answer_D [Examples.doc111]).
Proof.
  pose proof (C4_citation_keys_are_source_pmids
                Examples.answer_D [Examples.doc111] "999")
    as (_ & Hnone & _ & Hinv).
  pose proof (C4_citation_keys_are_source_pmids
                Examples.answer_D [Examples.doc111] "111")
    as (_ & _ & Hsome & _).
  assert (H999 : "999" ∈ findall_pmid Examples.answer_D)
    by (vm_compute; apply list_elem_of_further, list_elem_of_here).
  assert (Hno : forall d, d ∈ [Examples.doc111] -> pmid d <> "999").
  { intros d Hd. apply list_elem_of_singleton in Hd. subst d. discriminate. }
  split; [split|].
  - apply Hnone; assumption.
  - apply Hsome.
    + vm_compute. apply list_elem_of_here.
    + exists Examples.doc111. split; [apply list_elem_of_here | reflexivity].
  - apply Hinv. split; assumption.
Defined.

(** *** Citation accuracy *)

(** The quotient of [a <= b] rounds into [0, 1], its product by 100
    into [0, 100]. *)
Lemma percent_bounds a b :
  (a <= b)%nat -> (0 < b)%nat -> (0 <= percent a b <= 100)%Q.
Proof.
  intros Hab Hb. unfold percent, PyFloat.fmul, PyFloat.fdiv.
  assert (Hq : (0 <= inject_Z (Z.of_nat a) / inject_Z (Z.of_nat b) <= 1)%Q).
  { destruct b as [|n]; [lia|].
    unfold Qle, Qdiv, Qmult, Qinv, inject_Z. cbn [Qnum Qden].
    rewrite Nat2Z.inj_succ. unfold Z.succ.
    destruct (Z.of_nat n + 1)%Z eqn:E; try lia. cbn [Qnum Qden]. lia. }
  apply (PyFloatFacts.round_range _ 1 ltac:(lia)) in Hq.
  apply (PyFloatFacts.round_range _ 100 ltac:(lia)).
  destruct Hq as [Hq0 Hq1]. split.
  - apply Qmult_le_0_compat; [exact Hq0 | discriminate].
  - change (inject_Z 100) with (1 * 100)%Q.
    apply Qmult_le_compat_r; [exact Hq1 | discriminate].
Qed.

Lemma cited_empty_iff (l : list string) :
  (list_to_set l : gset string) = ∅ <-> l = [].
Proof.
  split; [|intros ->; reflexivity].
  destruct l as [|x l]; [reflexivity|]. intros H.
  assert (Hx : x ∈ (list_to_set (x :: l) : gset string))
    by (apply elem_of_list_to_set, list_elem_of_here).
  rewrite H in Hx. destruct (not_elem_of_empty (C := gset string) x Hx).
Qed.

(** C5. When the answer holds at least one marker, the accuracy is the
    number of valid citations divided by the number of distinct cited
    pmids, times 100, as floats compute it (quotient and product each
    rounded to binary64); when it holds none, the accuracy is 0 whatever
    the documents; and it always lies between 0 and 100. *)
Theorem C5_citation_accuracy_formula_and_range answer documents :
  (findall_pmid answer <> [] ->
     total_citations (verify_citations answer documents) <> 0%nat
     /\ citation_accuracy (verify_citations answer documents)
        = PyFloat.fmul
            (PyFloat.fdiv
               (inject_Z (Z.of_nat
                  (valid_citations (verify_citations answer documents))))
               (inject_Z (Z.of_nat
                  (total_citations (verify_citations answer documents)))))
            100)
  /\ (findall_pmid answer = [] ->
      citation_accuracy (verify_citations answer documents) = 0%Q)
  /\ (valid_citations (verify_citations answer documents)
      <= total_citations (verify_citations answer documents))%nat
  /\ (0 <= citation_accuracy (verify_citations answer documents) <= 100)%Q.
Proof.
  unfold verify_citations. simpl.
  set (cited := list_to_set (findall_pmid answer) : gset string).
  set (source := list_to_set (pmid <$> documents) : gset string).
  assert (Hle : (size (cited ∖ (cited ∖ source)) <= size cited)%nat).
  { apply subseteq_size. intros x Hx.
    apply elem_of_difference in Hx as [Hx _]. exact Hx. }
  split; [|split; [|split]].
  - intros Hne.
    assert (Hc : cited <> ∅) by (intros H; apply cited_empty_iff in H; auto).
    rewrite bool_decide_eq_false_2 by exact Hc.
    split; [|reflexivity].
    intros H. apply size_empty_iff in H. apply Hc.
    apply leibniz_equiv, H.
  - intros He. rewrite bool_decide_eq_true_2; [reflexivity|].
    apply cited_empty_iff, He.
  - exact Hle.
  - destruct (bool_decide (cited = ∅)) eqn:E.
    + split; discriminate.
    + apply bool_decide_eq_false in E. apply percent_bounds; [exact Hle|].
      destruct (size cited) eqn:Hs; [|lia].
      exfalso. apply E, leibniz_equiv, size_empty_iff, Hs.
Qed.

(** Scenario D: one of the two cited pmids is a source, 50 percent;
    and an answer without marker. *)
Lemma C5_witness :
  (citation_accuracy (verify_citations Examples.answer_D [Examples.doc111])
   == 50)%Q
  /\ citation_accuracy
       (verify_citations "No citation here." [Examples.doc111]) = 0%Q.
Proof.
  pose proof (C5_citation_accuracy_formula_and_range
                Examples.answer_D [Examples.doc111]) as (Hf & _).
  pose proof (C5_citation_accuracy_formula_and_range
                "No citation here." [Examples.doc111]) as (_ & Hz & _).
  split.
  - destruct Hf as [_ Hf]; [vm_compute; discriminate|].
    rewrite Hf. vm_compute. reflexivity.
  - apply Hz. vm_compute. reflexivity.
Defined.

End CitationFacts.

(** * Further properties *)

(** ** The risk screener, all tiers *)

Module ScreenerFacts.
Import PyStr PyStrFacts RiskModel RiskFacts.

Lemma append_assoc (a b c : string) : (a +:+ b) +:+ c = a +:+ b +:+ c.
Proof.
  induction a as [|x a IH]; [reflexivity|].
  rewrite !app_cons, IH. reflexivity.
Qed.

Lemma mentions_inside keywords q pre post :
  mentions keywords q -> mentions keywords (pre +:+ q +:+ post).
Proof.
  intros (kw & Hin & a & mid & b & -> & Hmid).
  exists kw. split; [exact Hin|].
  exists (pre +:+ a), mid, (b +:+ post). split; [|exact Hmid].
  rewrite !append_assoc. reflexivity.
Qed.

Lemma lower_char_idempotent c : lower_char (lower_char c) = lower_char c.
Proof. destruct c as [[] [] [] [] [] [] [] []]; reflexivity. Qed.

Lemma lower_idempotent s : lower (lower s) = lower s.
Proof.
  induction s as [|c s IH]; [reflexivity|].
  simpl. rewrite lower_char_idempotent, IH. reflexivity.
Qed.

(** X1. The tier of a query is decided by which keyword tables it
    mentions, case ignored: unsafe and critical exactly for the
    emergency table; otherwise medium exactly when a treatment phrase
    occurs, high exactly when a diagnostic phrase occurs without a
    treatment phrase, low exactly when nothing occurs, and only then
    are there no warnings. *)
Theorem X1_risk_tier_classification q :
  (safe (check_query_safety q) = false <-> mentions emergency_keywords q)
  /\ (risk_level (check_query_safety q) = "critical" <->
      mentions emergency_keywords q)
  /\ (risk_level (check_query_safety q) = "medium" <->
      ~ mentions emergency_keywords q /\ mentions treatment_keywords q)
  /\ (risk_level (check_query_safety q) = "high" <->
      ~ mentions emergency_keywords q /\ mentions diagnostic_keywords q
      /\ ~ mentions treatment_keywords q)
  /\ (risk_level (check_query_safety q) = "low" <->
      ~ mentions emergency_keywords q /\ ~ mentions diagnostic_keywords q
      /\ ~ mentions treatment_keywords q)
  /\ (warnings (check_query_safety q) = [] <->
      risk_level (check_query_safety q) = "low").
Proof.
  rewrite <- !(any_in_lower _ _ emergency_lower).
  rewrite <- !(any_in_lower _ _ diagnostic_lower).
  rewrite <- !(any_in_lower _ _ treatment_lower).
  unfold check_query_safety.
  destruct (any_in emergency_keywords (lower q)),
           (any_in diagnostic_keywords (lower q)),
           (any_in treatment_keywords (lower q)); simpl;
    repeat split; try discriminate; try tauto; intuition congruence.
Qed.

(** X2. Text put before or after a query that mentions an emergency
    keyword does not unblock it. *)
Theorem X2_blocked_whatever_surrounds q pre post :
  mentions emergency_keywords q ->
  check_query_safety (pre +:+ q +:+ post)
  = mkRisk false [emergency_warning] "critical".
Proof.
  intros H. apply check_emergency, mentions_inside, H.
Qed.

Lemma X2_witness :
  check_query_safety ("Asking for a friend: " +:+ "an OVERDOSE" +:+ " of what?")
  = mkRisk false [emergency_warning] "critical".
Proof.
  apply X2_blocked_whatever_surrounds.
  apply emergency_iff. reflexivity.
Defined.

(** X3. The assessment of a query is the assessment of its lower-case
    form. *)
Theorem X3_assessment_ignores_case q :
  check_query_safety (lower q) = check_query_safety q.
Proof.
  unfold check_query_safety. rewrite lower_idempotent. reflexivity.
Qed.

End ScreenerFacts.

(** ** Retrieval validation and answer safety *)

Module RiskManagerFacts.
Import PyStr PyStrFacts PyRe PyInt RiskManagerModel RagPipeline.

Lemma absolute_lower : Forall (fun kw => lower kw = kw) absolute_words.
Proof. repeat constructor. Qed.

Lemma uncertainty_lower : Forall (fun kw => lower kw = kw) uncertainty_phrases.
Proof. repeat constructor. Qed.

Lemma filter_nil_iff {A} (f : A -> bool) (l : list A) :
  List.filter f l = [] <-> forall x, x ∈ l -> f x = false.
Proof.
  induction l as [|a l IH]; simpl.
  - split; [intros _ x H; inversion H | reflexivity].
  - destruct (f a) eqn:E.
    + split; [discriminate|]. intros H.
      rewrite (H a (list_elem_of_here a l)) in E. discriminate.
    + rewrite IH. split.
      * intros H x Hx. apply elem_of_cons in Hx as [->|Hx]; auto.
      * intros H x Hx. apply H, list_elem_of_further, Hx.
Qed.

Lemma low_similarity_false self d :
  low_similarity self d = false <->
  (min_similarity_threshold self <= similarity_score d)%Q.
Proof.
  unfold low_similarity. rewrite negb_false_iff. apply Qle_bool_iff.
Qed.

(** X4. [check_answer_safety] declares an answer safe exactly when the
    citation dictionary is not empty; wording and length only add flags.
    Each of the four flags is present exactly under its own condition
    (no citation; an absolute word, case ignored; an uncertainty phrase,
    case ignored; more characters than [max_answer_length], so an answer
    of exactly that length is not flagged), and the flags come in that
    order. *)
Theorem X4_answer_safety_flags {V} self answer (citations : gmap string V) :
  (answer_safe (check_answer_safety self answer citations) = true <->
   citations <> ∅)
  /\ (flag_no_citations ∈ flags (check_answer_safety self answer citations)
      <-> citations = ∅)
  /\ (flag_absolute ∈ flags (check_answer_safety self answer citations)
      <-> mentions absolute_words answer)
  /\ (flag_uncertain ∈ flags (check_answer_safety self answer citations)
      <-> mentions uncertainty_phrases answer)
  /\ (flag_long ∈ flags (check_answer_safety self answer citations)
      <-> (max_answer_length self < Z.of_nat (String.length answer))%Z)
  /\ sublist (flags (check_answer_safety self answer citations))
       [flag_no_citations; flag_absolute; flag_uncertain; flag_long].
Proof.
  rewrite <- (any_in_lower _ _ absolute_lower).
  rewrite <- (any_in_lower _ _ uncertainty_lower).
  rewrite <- Z.ltb_lt.
  unfold check_answer_safety.
  destruct (bool_decide (citations = ∅)) eqn:Hc;
    [apply bool_decide_eq_true in Hc | apply bool_decide_eq_false in Hc];
    destruct (any_in absolute_words (lower answer)),
             (any_in uncertainty_phrases (lower answer)),
             (max_answer_length self <? Z.of_nat (String.length answer))%Z;
    simpl; rewrite ?elem_of_cons, ?elem_of_nil;
    unfold flag_no_citations, flag_absolute, flag_uncertain, flag_long;
    repeat match goal with |- _ /\ _ => split end;
    try (intuition (first [discriminate | congruence | reflexivity]); fail);
    repeat first [apply sublist_nil | apply sublist_skip | apply sublist_cons].
Qed.

(** X6. [validate_retrieval] clears [valid] exactly when there are
    fewer documents than [min_documents_required]: low scores and old
    dates only add issues. There are at most three issues, and none
    exactly when there are enough documents, none below the similarity
    threshold and none old. *)
Theorem X6_validation_is_advisory self current_year documents :
  (retrieval_valid (validate_retrieval self current_year documents) = true
   <-> (min_documents_required self <= Z.of_nat (length documents))%Z)
  /\ (issues (validate_retrieval self current_year documents) = [] <->
      (min_documents_required self <= Z.of_nat (length documents))%Z
      /\ (forall d, d ∈ documents ->
            (min_similarity_threshold self <= similarity_score d)%Q)
      /\ (forall d, d ∈ documents -> is_old current_year d = false))
  /\ (length (issues (validate_retrieval self current_year documents)) <= 3)%nat.
Proof.
  assert (Hlow : List.filter (low_similarity self) documents = [] <->
                 forall d, d ∈ documents ->
                   (min_similarity_threshold self <= similarity_score d)%Q).
  { rewrite filter_nil_iff. split; intros H d Hd;
      apply low_similarity_false, H, Hd. }
  rewrite <- Hlow, <- (filter_nil_iff (is_old current_year)).
  unfold validate_retrieval.
  destruct (Z.ltb_spec (Z.of_nat (length documents))
              (min_documents_required self)) as [Hn|Hn];
    destruct (List.filter (low_similarity self) documents);
    destruct (List.filter (is_old current_year) documents); simpl;
    repeat split; try discriminate; try lia; try tauto;
    try (intros (? & ? & ?); try discriminate; lia).
Qed.

Lemma digit_not_int_space c : is_digit c = true -> is_int_space c = false.
Proof.
  destruct c as [[] [] [] [] [] [] [] []]; intros H;
    first [reflexivity | discriminate H].
Qed.

Lemma py_int_digit_head c t :
  is_digit c = true ->
  py_int (String c t)
  = match scan_digits 0 false false (String c t) with
    | Some (v, rest) => if all_int_space rest then Some v else None
    | None => None
    end.
Proof.
  destruct c as [[] [] [] [] [] [] [] []]; intros H;
    first [discriminate H | reflexivity].
Qed.

Lemma py_int_bad_head c t :
  is_digit c = false -> is_int_space c = false ->
  c <> "+"%char -> c <> "-"%char ->
  py_int (String c t) = None.
Proof.
  destruct c as [[] [] [] [] [] [] [] []]; intros H1 H2 H3 H4;
    first [reflexivity | discriminate H1 | discriminate H2
          | destruct H3; reflexivity | destruct H4; reflexivity].
Qed.

(** X8. A document whose date starts with four digits is older than
    five years exactly when the current year minus the year they spell
    is more than 5 (a document of five years ago is not old); a date
    that starts with anything but a digit, a sign or a space is never
    old, the failed parse being swallowed. *)
Theorem X8_old_means_more_than_five_years current_year doc :
  (forall c1 c2 c3 c4 rest,
     publication_date doc
     = String c1 (String c2 (String c3 (String c4 rest))) ->
     is_digit c1 = true -> is_digit c2 = true ->
     is_digit c3 = true -> is_digit c4 = true ->
     is_old current_year doc
     = (5 <? current_year
             - (1000 * digit_value c1 + 100 * digit_value c2
                + 10 * digit_value c3 + digit_value c4))%Z)
  /\ (forall c rest,
     publication_date doc = String c rest ->
     is_digit c = false -> is_int_space c = false ->
     c <> "+"%char -> c <> "-"%char ->
     is_old current_year doc = false)
  /\ (publication_date doc = EmptyString -> is_old current_year doc = false).
Proof.
  split; [|split].
  - intros c1 c2 c3 c4 rest Hd H1 H2 H3 H4. unfold is_old. rewrite Hd.
    cbn [str_take]. rewrite (py_int_digit_head _ _ H1).
    cbn [scan_digits]. rewrite H1, H2, H3, H4. cbn [all_int_space].
    f_equal. f_equal. lia.
  - intros c rest Hd H1 H2 H3 H4. unfold is_old. rewrite Hd.
    cbn [str_take]. rewrite (py_int_bad_head _ _ H1 H2 H3 H4). reflexivity.
  - intros Hd. unfold is_old. rewrite Hd. reflexivity.
Qed.

Lemma X8_witness :
  is_old 2025 Examples.doc222 = true
  /\ is_old 2024 Examples.doc222 = false
  /\ is_old 2025
       (mkDoc 1 "1" "t" "a" "s" "j" "n.d." (1 # 2)) = false.
Proof.
  destruct (X8_old_means_more_than_five_years 2025 Examples.doc222)
    as [H25 _].
  destruct (X8_old_means_more_than_five_years 2024 Examples.doc222)
    as [H24 _].
  destruct (X8_old_means_more_than_five_years 2025
              (mkDoc 1 "1" "t" "a" "s" "j" "n.d." (1 # 2))) as (_ & Hbad & _).
  split; [|split].
  - rewrite (H25 "2"%char "0"%char "1"%char "9"%char "-06-15"); reflexivity.
  - rewrite (H24 "2"%char "0"%char "1"%char "9"%char "-06-15"); reflexivity.
  - apply (Hbad "n"%char ".d."); try reflexivity; discriminate.
Defined.

End RiskManagerFacts.

(** ** Citations: verification and extraction together *)

Module CitationFacts2.
Import PyStr PyStrFacts PyRe TrustModel RagPipeline CitationFacts Vocabulary.

Lemma source_pmid_iff (documents : list Document) p :
  p ∈ (list_to_set (pmid <$> documents) : gset string) <->
  exists d, d ∈ documents /\ pmid d = p.
Proof.
  rewrite elem_of_list_to_set, list_elem_of_fmap. split.
  - intros (d & -> & Hd). eauto.
  - intros (d & Hd & <-). eauto.
Qed.

Lemma find_pmid_is_some documents p :
  is_Some (List.find (fun d => bool_decide (pmid d = p)) documents) <->
  exists d, d ∈ documents /\ pmid d = p.
Proof.
  split.
  - intros [doc H]. apply find_pmid_some in H. eauto.
  - intros (d & Hd & Hp).
    destruct (List.find _ documents) eqn:E; [eauto|].
    destruct (proj1 (find_pmid_none _ _) E d Hd Hp).
Qed.

Lemma extract_citations_dom answer documents :
  dom (extract_citations answer documents)
  = (list_to_set (findall_pmid answer) : gset string)
    ∩ list_to_set (pmid <$> documents).
Proof.
  apply set_eq. intros p.
  rewrite elem_of_dom, extract_citations_lookup, elem_of_intersection.
  rewrite elem_of_list_to_set, source_pmid_iff, <- find_pmid_is_some.
  destruct (decide (p ∈ findall_pmid answer)) as [Hin|Hnin].
  - rewrite fmap_is_Some. tauto.
  - split; [intros [? H]; discriminate | tauto].
Qed.

Lemma valid_set_eq (cited source : gset string) :
  cited ∖ (cited ∖ source) = cited ∩ source.
Proof.
  apply set_eq. intros p.
  rewrite !elem_of_difference, elem_of_intersection.
  destruct (decide (p ∈ source)); tauto.
Qed.

(** X12. The counts of [verify_citations] add up: the valid citations
    and the invalid ones make the total. [valid] holds exactly when no
    citation is invalid, which is when all of them are valid. The list
    of invalid citations has no repetition. *)
Theorem X12_citation_counts_add_up answer documents :
  (valid_citations (verify_citations answer documents)
   + length (invalid_citations (verify_citations answer documents))
   = total_citations (verify_citations answer documents))%nat
  /\ (valid (verify_citations answer documents) = true <->
      invalid_citations (verify_citations answer documents) = [])
  /\ (valid (verify_citations answer documents) = true <->
      valid_citations (verify_citations answer documents)
      = total_citations (verify_citations answer documents))
  /\ NoDup (invalid_citations (verify_citations answer documents)).
Proof.
  unfold verify_citations. simpl.
  set (cited := list_to_set (findall_pmid answer) : gset string).
  set (source := list_to_set (pmid <$> documents) : gset string).
  assert (Hsub : cited ∖ source ⊆ cited).
  { intros x Hx. apply elem_of_difference in Hx as [Hx _]. exact Hx. }
  pose proof (size_difference cited (cited ∖ source) Hsub) as Hd.
  pose proof (subseteq_size _ _ Hsub) as Hle.
  assert (Hlen : length (elements (cited ∖ source)) = size (cited ∖ source))
    by reflexivity.
  rewrite Hlen, bool_decide_eq_true.
  split; [lia|]. split; [|split].
  - rewrite <- Hlen. split.
    + intros H. apply length_zero_iff_nil, H.
    + intros ->. reflexivity.
  - lia.
  - apply NoDup_elements.
Qed.

(** X13. [uncited_sources] lists, without repetition, the pmids of the
    documents that the answer does not cite; no pmid is both an invalid
    citation and an uncited source. *)
Theorem X13_uncited_sources answer documents p :
  (p ∈ uncited_sources (verify_citations answer documents) <->
   (exists d, d ∈ documents /\ pmid d = p) /\ ~ p ∈ findall_pmid answer)
  /\ ~ (p ∈ invalid_citations (verify_citations answer documents)
        /\ p ∈ uncited_sources (verify_citations answer documents))
  /\ NoDup (uncited_sources (verify_citations answer documents)).
Proof.
  unfold verify_citations. simpl.
  rewrite !elem_of_elements, !elem_of_difference, source_pmid_iff.
  rewrite elem_of_list_to_set.
  split; [tauto|]. split; [tauto|]. apply NoDup_elements.
Qed.

(** X15. The citation dictionary and the verification agree: the keys
    of [extract_citations] are the cited pmids that are source pmids,
    and their number is [valid_citations]. *)
Theorem X15_citations_are_the_valid_ones answer documents :
  dom (extract_citations answer documents)
  = (list_to_set (findall_pmid answer) : gset string)
    ∩ list_to_set (pmid <$> documents)
  /\ size (extract_citations answer documents)
     = valid_citations (verify_citations answer documents)
  /\ (extract_citations answer documents = ∅ <->
      valid_citations (verify_citations answer documents) = 0%nat).
Proof.
  pose proof (extract_citations_dom answer documents) as Hdom.
  assert (Hsize : size (extract_citations answer documents)
                  = valid_citations (verify_citations answer documents)).
  { rewrite <- size_dom, Hdom. unfold verify_citations. simpl.
    rewrite valid_set_eq. reflexivity. }
  split; [exact Hdom|]. split; [exact Hsize|].
  rewrite <- Hsize. split.
  - intros ->. reflexivity.
  - intros H. apply map_size_empty_iff, H.
Qed.

(** X16. When several documents carry the same pmid, the citation is
    built from the first of them. *)
Theorem X16_first_document_with_pmid_is_cited answer before d after p :
  p ∈ findall_pmid answer ->
  pmid d = p ->
  (forall d', d' ∈ before -> pmid d' <> p) ->
  extract_citations answer (before ++ d :: after) !! p
  = Some (mkCitation p (title d) (journal d) (publication_date d)
            ("https://pubmed.ncbi.nlm.nih.gov/" +:+ p +:+ "/")).
Proof.
  intros Hin Hp Hbefore. rewrite extract_citations_lookup.
  rewrite decide_True by exact Hin.
  assert (Hfind : List.find (fun x => bool_decide (pmid x = p))
                    (before ++ d :: after) = Some d).
  { induction before as [|b before IH]; simpl.
    - rewrite bool_decide_eq_true_2 by exact Hp. reflexivity.
    - rewrite bool_decide_eq_false_2
        by (apply Hbefore, list_elem_of_here).
      apply IH. intros d' Hd'. apply Hbefore, list_elem_of_further, Hd'. }
  rewrite Hfind. reflexivity.
Qed.

Lemma X16_witness :
  c_title <$>
    (extract_citations Examples.answer_D
       [Examples.doc222;
        mkDoc 5 "111" "First" "a" "s" "j" "2020" (1 # 2);
        mkDoc 6 "111" "Second" "a" "s" "j" "2021" (1 # 2)] !! "111")
  = Some "First".
Proof.
  pose proof (X16_first_document_with_pmid_is_cited Examples.answer_D
                [Examples.doc222]
                (mkDoc 5 "111" "First" "a" "s" "j" "2020" (1 # 2))
                [mkDoc 6 "111" "Second" "a" "s" "j" "2021" (1 # 2)] "111")
    as H.
  cbn [app] in H. rewrite H.
  - reflexivity.
  - vm_compute. apply list_elem_of_here.
  - reflexivity.
  - intros d' Hd'. apply list_elem_of_singleton in Hd'. subst d'.
    discriminate.
Defined.

(** *** What the pattern extracts *)

Lemma take_digits_all s : all_digits (take_digits s) = true.
Proof.
  induction s as [|c s IH]; [reflexivity|]. simpl.
  destruct (is_digit c) eqn:E; [|reflexivity].
  simpl. rewrite E, IH. reflexivity.
Qed.

Lemma match_pmid_digits s ds len :
  match_pmid s = Some (ds, len) -> ds <> EmptyString /\ all_digits ds = true.
Proof.
  unfold match_pmid. destruct (startswith "PMID:" s); [|discriminate].
  pose proof (take_digits_all (skip_spaces (drop 5 s))) as Hall.
  destruct (take_digits (skip_spaces (drop 5 s))) as [|c t]; [discriminate|].
  intros H. injection H as <- _. split; [discriminate | exact Hall].
Qed.

Lemma findall_from_digits s : forall skip p,
  p ∈ findall_from skip s -> p <> EmptyString /\ all_digits p = true.
Proof.
  induction s as [|c s IH]; intros skip p Hp; simpl in Hp.
  - inversion Hp.
  - destruct skip as [|k]; [|apply (IH _ _ Hp)].
    destruct (match_pmid (String c s)) as [[ds len]|] eqn:E.
    + apply elem_of_cons in Hp as [->|Hp].
      * apply (match_pmid_digits _ _ _ E).
      * apply (IH _ _ Hp).
    + apply (IH _ _ Hp).
Qed.

Lemma no_marker_findall s : forall skip,
  contains "PMID:" s = false -> findall_from skip s = [].
Proof.
  induction s as [|c s IH]; intros skip H; [reflexivity|].
  change (contains "PMID:" (String c s))
    with (startswith "PMID:" (String c s) || contains "PMID:" s) in H.
  apply orb_false_iff in H as [Hs Hc].
  cbn [findall_from]. destruct skip as [|k]; [|apply IH, Hc].
  unfold match_pmid. rewrite Hs. apply IH, Hc.
Qed.

(** X17. Every pmid that the pattern extracts is a non-empty string of
    decimal digits, and so is every key of the citation dictionary; a
    document whose pmid is empty or contains another character is never
    cited and is always reported among the uncited sources. *)
Theorem X17_extracted_pmids_are_digit_strings answer documents :
  (forall p, p ∈ findall_pmid answer ->
     p <> EmptyString /\ all_digits p = true)
  /\ (forall p, is_Some (extract_citations answer documents !! p) ->
     p <> EmptyString /\ all_digits p = true)
  /\ (forall d, d ∈ documents ->
     pmid d = EmptyString \/ all_digits (pmid d) = false ->
     extract_citations answer documents !! pmid d = None
     /\ pmid d ∈ uncited_sources (verify_citations answer documents)).
Proof.
  assert (Hall : forall p, p ∈ findall_pmid answer ->
                   p <> EmptyString /\ all_digits p = true)
    by (intros p; apply findall_from_digits).
  split; [exact Hall|]. split.
  - intros p H. rewrite extract_citations_lookup in H.
    destruct (decide (p ∈ findall_pmid answer)) as [Hin|];
      [apply Hall, Hin | destruct H; discriminate].
  - intros d Hd Hbad.
    assert (Hnot : ~ pmid d ∈ findall_pmid answer).
    { intros Hin. apply Hall in Hin as [Hne Hdig].
      destruct Hbad as [He|Hf]; congruence. }
    split.
    + rewrite extract_citations_lookup, decide_False by exact Hnot.
      reflexivity.
    + unfold verify_citations. simpl.
      rewrite elem_of_elements, elem_of_difference, source_pmid_iff.
      rewrite elem_of_list_to_set. split; [eauto | exact Hnot].
Qed.

Lemma X17_witness :
  extract_citations "See PMID: PMC77 and PMID:12" 
    [mkDoc 1 "PMC77" "t" "a" "s" "j" "2020" (1 # 2)] !! "PMC77" = None.
Proof.
  destruct (X17_extracted_pmids_are_digit_strings
              "See PMID: PMC77 and PMID:12"
              [mkDoc 1 "PMC77" "t" "a" "s" "j" "2020" (1 # 2)])
    as (_ & _ & H).
  apply (H (mkDoc 1 "PMC77" "t" "a" "s" "j" "2020" (1 # 2))).
  - apply list_elem_of_here.
  - right. reflexivity.
Defined.

(** X18. An answer in which the text "PMID:" does not occur (in this
    spelling) yields no citation at all: nothing is extracted, the
    citation dictionary is empty, the verification counts zero
    citations with accuracy 0 and [valid] set, and every document is an
    uncited source. *)
Theorem X18_no_marker_no_citation answer documents :
  contains "PMID:" answer = false ->
  findall_pmid answer = []
  /\ extract_citations answer documents = ∅
  /\ total_citations (verify_citations answer documents) = 0%nat
  /\ citation_accuracy (verify_citations answer documents) = 0%Q
  /\ valid (verify_citations answer documents) = true
  /\ (forall d, d ∈ documents ->
        pmid d ∈ uncited_sources (verify_citations answer documents)).
Proof.
  intros H. pose proof (no_marker_findall answer 0 H) as Hf.
  fold (findall_pmid answer) in Hf.
  split; [exact Hf|]. split; [|split; [|split; [|split]]].
  - unfold extract_citations. rewrite Hf. reflexivity.
  - unfold verify_citations. rewrite Hf. reflexivity.
  - unfold verify_citations. rewrite Hf. reflexivity.
  - unfold verify_citations. rewrite Hf. simpl.
    apply bool_decide_eq_true_2, size_empty_iff. intros x. split.
    + intros Hx. apply elem_of_difference in Hx as [Hx _]. exact Hx.
    + intros Hx. destruct (not_elem_of_empty (C := gset string) x Hx).
  - intros d Hd. unfold verify_citations. rewrite Hf. simpl.
    rewrite elem_of_elements, elem_of_difference, source_pmid_iff.
    split; [eauto | apply not_elem_of_empty].
Qed.

Lemma X18_witness :
  extract_citations "Metformin lowers glucose (pmid: 111)." [Examples.doc111]
  = ∅.
Proof.
  apply (X18_no_marker_no_citation
           "Metformin lowers glucose (pmid: 111)." [Examples.doc111]).
  reflexivity.
Defined.

(** *** The two ends of the accuracy scale *)

Lemma round_pos_same n :
  PyFloat.round_pos n n = (4503599627370496 # 4503599627370496)%Q.
Proof.
  unfold PyFloat.round_pos, PyFloat.ilog2, PyFloat.prec, PyFloat.emin.
  rewrite Z.sub_diag. cbn [Z.leb Z.compare].
  change (2 ^ 0)%Z with 1%Z. rewrite Z.mul_1_r, Z.leb_refl.
  change (Z.max (-1074) (0 - (53 - 1))) with (-52)%Z.
  cbn [Z.leb Z.compare]. change (- (-52))%Z with 52%Z.
  assert (Hn : PyFloat.nearest_even (Z.pos n * 2 ^ 52) (Z.pos n)
               = 4503599627370496%Z).
  { unfold PyFloat.nearest_even.
    rewrite (Z.mul_comm (Z.pos n)), Z.div_mul, Z.mod_mul by discriminate.
    change (2 * 0)%Z with 0%Z. reflexivity. }
  rewrite Hn. reflexivity.
Qed.

Lemma percent_all n : (0 < n)%nat -> (percent n n == 100)%Q.
Proof.
  intros Hn. destruct n as [|m]; [lia|].
  unfold percent, PyFloat.fdiv.
  assert (Hr : PyFloat.round
                 (inject_Z (Z.of_nat (S m)) / inject_Z (Z.of_nat (S m)))
               = (4503599627370496 # 4503599627370496)%Q).
  { unfold Qdiv, Qmult, Qinv, inject_Z, PyFloat.round. cbn [Qnum Qden].
    rewrite Nat2Z.inj_succ. unfold Z.succ.
    destruct (Z.of_nat m + 1)%Z as [|p|p] eqn:E; try lia.
    cbn [Qnum Qden Pos.mul]. rewrite Z.mul_1_r.
    apply round_pos_same. }
  rewrite Hr. vm_compute. reflexivity.
Qed.

Lemma percent_none b : percent 0 b = 0%Q.
Proof. reflexivity. Qed.

(** X14. When the answer cites something and every cited pmid is the
    pmid of a document, the accuracy is exactly 100; when no cited pmid
    is the pmid of a document, it is exactly 0. *)
Theorem X14_accuracy_extremes answer documents :
  (findall_pmid answer <> [] ->
   (forall p, p ∈ findall_pmid answer ->
      exists d, d ∈ documents /\ pmid d = p) ->
   (citation_accuracy (verify_citations answer documents) == 100)%Q)
  /\ ((forall p d, p ∈ findall_pmid answer -> d ∈ documents -> pmid d <> p) ->
      (citation_accuracy (verify_citations answer documents) == 0)%Q).
Proof.
  unfold verify_citations. simpl.
  set (cited := list_to_set (findall_pmid answer) : gset string).
  set (source := list_to_set (pmid <$> documents) : gset string).
  rewrite valid_set_eq. split.
  - intros Hne Hall.
    assert (Hc : cited <> ∅) by (intros H; apply cited_empty_iff in H; auto).
    rewrite bool_decide_eq_false_2 by exact Hc.
    assert (Heq : cited ∩ source = cited).
    { apply set_eq. intros p. rewrite elem_of_intersection.
      unfold cited, source. rewrite source_pmid_iff, elem_of_list_to_set.
      split; [tauto|]. intros Hp. split; [exact Hp | apply Hall, Hp]. }
    rewrite Heq. apply percent_all.
    destruct (size cited) eqn:Hs; [|lia].
    exfalso. apply Hc, leibniz_equiv, size_empty_iff, Hs.
  - intros Hnone.
    assert (Heq : cited ∩ source = ∅).
    { apply set_eq. intros p. rewrite elem_of_intersection.
      unfold cited, source. rewrite source_pmid_iff, elem_of_list_to_set.
      split; [|intros H; destruct (not_elem_of_empty (C := gset string) p H)].
      intros [Hp (d & Hd & He)]. destruct (Hnone p d Hp Hd He). }
    rewrite Heq. destruct (bool_decide (cited = ∅)); reflexivity.
Qed.

Lemma X14_witness :
  (citation_accuracy
     (verify_citations "Given [PMID: 111] and [PMID:222]."
        [Examples.doc111; Examples.doc222; Examples.doc333]) == 100)%Q
  /\ (citation_accuracy
        (verify_citations "Given [PMID: 999]." [Examples.doc111]) == 0)%Q.
Proof.
  split.
  - apply X14_accuracy_extremes.
    + vm_compute. discriminate.
    + intros p Hp. vm_compute in Hp.
      apply elem_of_cons in Hp as [->|Hp];
        [exists Examples.doc111; split; [apply list_elem_of_here|reflexivity]|].
      apply list_elem_of_singleton in Hp. subst p.
      exists Examples.doc222.
      split; [apply list_elem_of_further, list_elem_of_here | reflexivity].
  - apply X14_accuracy_extremes.
    intros p d Hp Hd. vm_compute in Hp.
    apply list_elem_of_singleton in Hp. apply list_elem_of_singleton in Hd.
    subst. discriminate.
Defined.

End CitationFacts2.

(** ** The transparency audit and the answer-safety check on citations *)

Module TrustAuditFacts.
Import PyStr PyStrFacts PyRe TrustModel RagPipeline TrustAudit
       RiskManagerModel CitationFacts CitationFacts2.

Lemma uncertainty_words_lower :
  Forall (fun kw => lower kw = kw) uncertainty_words.
Proof. repeat constructor. Qed.

(** The score and the issues as the three facts decide them: whether
    there are citations, whether there are sources, whether the answer
    hedges. *)
Lemma transparency_by_cases {V} (citations : gmap string V) sources answer :
  transparency_score (check_transparency citations sources answer)
  = ((if bool_decide (citations = ∅) then 0 else 1)
     + (match sources with [] => 0 | _ :: _ => 3 end)
     + (if any_in uncertainty_words (lower answer) then 1 else 0))%Z
  /\ transparency_issues (check_transparency citations sources answer)
     = ((if bool_decide (citations = ∅) then ["Missing citations"] else [])
        ++ (match sources with
            | [] => ["Missing source documents"; "Missing similarity scores";
                     "Missing metadata"]
            | _ :: _ => []
            end)
        ++ (if any_in uncertainty_words (lower answer) then []
            else ["No uncertainty indicators"]))%list.
Proof.
  assert (Hall : forallb (fun _ : Document => true) sources = true)
    by (induction sources; cbn [forallb andb]; auto).
  unfold check_transparency.
  cbn [transparency_score transparency_issues].
  destruct sources as [|d rest]; [|rewrite Hall];
    destruct (bool_decide (citations = ∅)),
             (any_in uncertainty_words (lower answer));
    split; reflexivity.
Qed.

Lemma percentage_of_score {V} (citations : gmap string V) sources answer :
  percentage (check_transparency citations sources answer)
  = PyFloat.fmul
      (PyFloat.fdiv
         (inject_Z (transparency_score
                      (check_transparency citations sources answer)))
         (inject_Z 5))
      100.
Proof. reflexivity. Qed.

(** X9. Each of the five criteria of [check_transparency] either gives
    a point or appends an issue: the score and the number of issues add
    up to [max_score], which is 5, and the score lies between 0 and 5. *)
Theorem X9_score_and_issues_add_up {V} (citations : gmap string V)
    sources answer :
  (transparency_score (check_transparency citations sources answer)
   + Z.of_nat (length (transparency_issues
                         (check_transparency citations sources answer)))
   = max_score (check_transparency citations sources answer))%Z
  /\ max_score (check_transparency citations sources answer) = 5%Z
  /\ (0 <= transparency_score (check_transparency citations sources answer)
      <= 5)%Z.
Proof.
  destruct (transparency_by_cases citations sources answer) as [Hs Hi].
  rewrite Hs, Hi.
  change (max_score (check_transparency citations sources answer)) with 5%Z.
  destruct (bool_decide (citations = ∅)), sources as [|d rest],
           (any_in uncertainty_words (lower answer));
    cbn [app length]; repeat split; lia.
Qed.

(** X10. The percentage is exactly twenty times the score, in floats
    as computed (no rounding error shows), so it is one of 0, 20, 40,
    60, 80, 100, and it is 100 exactly when there is no issue. *)
Theorem X10_percentage_is_twenty_per_point {V} (citations : gmap string V)
    sources answer :
  (percentage (check_transparency citations sources answer)
   == 20 * inject_Z (transparency_score
                       (check_transparency citations sources answer)))%Q
  /\ ((percentage (check_transparency citations sources answer) == 100)%Q
      <-> transparency_issues (check_transparency citations sources answer)
          = []).
Proof.
  destruct (transparency_by_cases citations sources answer) as [Hs Hi].
  rewrite percentage_of_score, Hs, Hi.
  destruct (bool_decide (citations = ∅)), sources as [|d rest],
           (any_in uncertainty_words (lower answer));
    cbn [app];
    (split; [vm_compute; reflexivity|]);
    (split; [intros H; try reflexivity; vm_compute in H; discriminate H
            | intros H; try discriminate H; vm_compute; reflexivity]).
Qed.

(** X11. Without sources the three criteria about sources all fail:
    their issues are reported, in the order of the checks, and the score
    is at most 2; with sources (documents of the vector database, which
    carry score and metadata) the three points are all given. *)
Theorem X11_sources_decide_three_points {V} (citations : gmap string V)
    sources answer :
  (sources = [] ->
   sublist ["Missing source documents"; "Missing similarity scores";
            "Missing metadata"]
           (transparency_issues (check_transparency citations sources answer))
   /\ (transparency_score (check_transparency citations sources answer)
       <= 2)%Z)
  /\ (sources <> [] ->
      (3 <= transparency_score (check_transparency citations sources answer))%Z
      /\ forall issue,
           issue ∈ transparency_issues
                     (check_transparency citations sources answer) ->
           issue = "Missing citations" \/ issue = "No uncertainty indicators").
Proof.
  destruct (transparency_by_cases citations sources answer) as [Hs Hi].
  rewrite Hs, Hi. split.
  - intros ->.
    destruct (bool_decide (citations = ∅)),
             (any_in uncertainty_words (lower answer)); cbn [app];
      (split; [|lia]);
      repeat first [apply sublist_nil | apply sublist_skip
                   | apply sublist_cons].
  - intros Hne. destruct sources as [|d rest]; [congruence|].
    destruct (bool_decide (citations = ∅)),
             (any_in uncertainty_words (lower answer)); cbn [app];
      (split; [lia|]); intros issue Hi';
      rewrite ?elem_of_cons, ?elem_of_nil in Hi'; tauto.
Qed.

Lemma X11_witness :
  (transparency_score
     (check_transparency (∅ : gmap string Citation) [] "It may help.") <= 2)%Z
  /\ (3 <= transparency_score
              (check_transparency (∅ : gmap string Citation)
                 [Examples.doc111] "It helps."))%Z.
Proof.
  split.
  - apply (X11_sources_decide_three_points
             (∅ : gmap string Citation) [] "It may help."). reflexivity.
  - apply (X11_sources_decide_three_points
             (∅ : gmap string Citation) [Examples.doc111] "It helps.").
    discriminate.
Defined.

Lemma answer_safe_iff {V} self answer (citations : gmap string V) :
  answer_safe (check_answer_safety self answer citations) = true <->
  citations <> ∅.
Proof.
  unfold check_answer_safety.
  destruct (bool_decide (citations = ∅)) eqn:Hc;
    [apply bool_decide_eq_true in Hc | apply bool_decide_eq_false in Hc];
    destruct (any_in absolute_words (lower answer)),
             (any_in uncertainty_phrases (lower answer)),
             (max_answer_length self <? Z.of_nat (String.length answer))%Z;
    simpl; split; try discriminate; try congruence; auto.
Qed.

(** X5. On the citations that [extract_citations] builds from the same
    answer, [check_answer_safety] declares the answer safe exactly when
    the answer cites the pmid of at least one of the documents, which
    is when [verify_citations] counts a valid citation. *)
Theorem X5_safe_means_one_valid_citation self answer documents :
  (answer_safe
     (check_answer_safety self answer (extract_citations answer documents))
   = true <->
   exists p d, p ∈ findall_pmid answer /\ d ∈ documents /\ pmid d = p)
  /\ (answer_safe
        (check_answer_safety self answer (extract_citations answer documents))
      = true <->
      (0 < valid_citations (verify_citations answer documents))%nat).
Proof.
  rewrite answer_safe_iff.
  assert (Hne : extract_citations answer documents <> ∅ <->
                exists p d, p ∈ findall_pmid answer /\ d ∈ documents
                            /\ pmid d = p).
  { split.
    - intros H. apply map_choose in H as (p & c & Hp).
      assert (Hs : is_Some (extract_citations answer documents !! p))
        by eauto.
      apply elem_of_dom in Hs. rewrite extract_citations_dom in Hs.
      apply elem_of_intersection in Hs as [Hc Hsrc].
      apply elem_of_list_to_set in Hc.
      apply source_pmid_iff in Hsrc as (d & Hd & He). eauto.
    - intros (p & d & Hp & Hd & He) Hempty.
      assert (Hin : p ∈ dom (extract_citations answer documents)).
      { rewrite extract_citations_dom. apply elem_of_intersection. split.
        - apply elem_of_list_to_set, Hp.
        - apply source_pmid_iff. eauto. }
      rewrite Hempty, dom_empty_L in Hin.
      destruct (not_elem_of_empty (C := gset string) p Hin). }
  split; [exact Hne|].
  assert (Hsize : size (extract_citations answer documents)
                  = valid_citations (verify_citations answer documents)).
  { rewrite <- size_dom, extract_citations_dom. unfold verify_citations.
    simpl. rewrite valid_set_eq. reflexivity. }
  rewrite <- Hsize. split.
  - intros H. destruct (size (extract_citations answer documents)) eqn:E;
      [|lia]. apply map_size_empty_iff in E. contradiction.
  - intros H Hempty. rewrite Hempty in H. rewrite map_size_empty in H. lia.
Qed.

End TrustAuditFacts.

(** ** The orchestrator, every path *)

Module PipelineFacts2.
Import PyStr PyStrFacts PyRe PyInt RiskModel RiskFacts RagPipeline
       PipelineFacts CitationFacts RiskManagerModel RiskManagerFacts.

Lemma with_query_count_twice a b p :
  with_query_count a (with_query_count b p) = with_query_count a p.
Proof. reflexivity. Qed.

Lemma with_query_count_same p : with_query_count (query_count p) p = p.
Proof. destruct p. reflexivity. Qed.

Lemma filter_sublist {A} (f : A -> bool) (l : list A) :
  sublist (List.filter f l) l.
Proof.
  induction l as [|a l IH]; simpl; [constructor|].
  destruct (f a); constructor; exact IH.
Qed.

(** X25. [format_context] returns the sentinel text exactly for the
    empty list; for documents it returns a text that starts with a line
    break, so never the empty string and never the sentinel. *)
Theorem X25_context_sentinel_only_when_empty documents :
  (format_context documents = no_literature <-> documents = [])
  /\ format_context documents <> EmptyString
  /\ (documents <> [] ->
      exists text, format_context documents = String (ascii_of_nat 10) text).
Proof.
  assert (H : documents <> [] ->
              exists text,
                format_context documents = String (ascii_of_nat 10) text).
  { intros Hne. destruct documents as [|d rest]; [congruence|].
    unfold format_context. cbn [context_parts join].
    destruct (context_parts 2 rest);
      unfold context_block, nl; rewrite !app_cons; eexists; reflexivity. }
  split; [|split; [|exact H]].
  - split; [|intros ->; reflexivity].
    intros Heq. destruct documents as [|d rest]; [reflexivity|].
    destruct H as [text Ht]; [discriminate|].
    rewrite Ht in Heq. discriminate Heq.
  - destruct documents as [|d rest]; [discriminate|].
    destruct H as [text Ht]; [discriminate|]. rewrite Ht. discriminate.
Qed.

Lemma X25_witness :
  exists text,
    format_context [Examples.doc111] = String (ascii_of_nat 10) text.
Proof.
  apply (X25_context_sentinel_only_when_empty [Examples.doc111]).
  discriminate.
Defined.

Section Orchestrator.
Context {World : Type}.
Variable vector_db_search :
  string -> Z -> World -> Outcome (list Document) * World.
Variable llm_generate_content :
  string -> World -> Outcome string * World.

Local Abbreviation State := (@State World).
Local Abbreviation retrieve_documents :=
  (retrieve_documents vector_db_search).
Local Abbreviation query := (query vector_db_search llm_generate_content).
Local Abbreviation batch_query :=
  (batch_query vector_db_search llm_generate_content).

(** The four ways through [query], with what the oracles answered. *)
Lemma query_cases q st :
  (safe (check_query_safety q) = false
   /\ query q st
      = (Returns (<["question" := VStr q]>
                 (<["answer" := VStr emergency_warning]>
                 (<["citations" := VCitations ∅]>
                 (<["sources" := VDocs []]>
                 (<["risk_level" := VStr "critical"]>
                 (<["safe" := VBool false]> ∅)))))), st))
  \/ (safe (check_query_safety q) = true
      /\ exists e w,
           vector_db_search q (top_k (self st)) (world st) = (Raises e, w)
           /\ query q st = (Raises e, searched q w st))
  \/ (safe (check_query_safety q) = true
      /\ exists results w,
           vector_db_search q (top_k (self st)) (world st)
           = (Returns results, w)
           /\ List.filter (passes (similarity_threshold (self st))) results
              = []
           /\ query q st = (Returns (empty_result q), searched q w st))
  \/ (safe (check_query_safety q) = true
      /\ exists results w d kept out w',
           vector_db_search q (top_k (self st)) (world st)
           = (Returns results, w)
           /\ List.filter (passes (similarity_threshold (self st))) results
              = d :: kept
           /\ llm_generate_content
                (create_prompt q (format_context (d :: kept))) w
              = (out, w')
           /\ query q st
              = (Returns (generated_result q (answer_of out) (d :: kept)),
                 counted (generated
                            (create_prompt q (format_context (d :: kept)))
                            w' (searched q w st)))).
Proof.
  destruct (safe (check_query_safety q)) eqn:Hs.
  - right.
    destruct (vector_db_search q (top_k (self st)) (world st))
      as [[results|e] w] eqn:E.
    + right.
      destruct (List.filter (passes (similarity_threshold (self st)))
                  results) as [|d kept] eqn:Hf.
      * left. split; [reflexivity|]. exists results, w.
        split; [reflexivity|]. split; [exact Hf|].
        apply (query_empty _ _ _ _ _ _ Hs E Hf).
      * right. split; [reflexivity|].
        destruct (llm_generate_content
                    (create_prompt q (format_context (d :: kept))) w)
          as [out w'] eqn:Hg.
        exists results, w, d, kept, out, w'.
        split; [reflexivity|]. split; [exact Hf|]. split; [exact Hg|].
        apply (query_generated _ _ _ _ _ _ _ _ _ _ Hs E Hf Hg).
    + left. split; [reflexivity|]. exists e, w. split; [reflexivity|].
      apply (query_search_raises _ _ _ _ _ _ Hs E).
  - left. split; [reflexivity|]. apply query_blocked, Hs.
Qed.

(** X19. The dictionary that [query] returns has one of two key sets:
    for a blocked query question, answer, citations, sources, risk_level
    and safe; otherwise question, answer, citations, sources,
    num_sources and cost. It never has citation_accuracy or
    transparency_score, and the risk tier of a query that is not blocked
    is not in it. *)
Theorem X19_result_key_sets q st r st' :
  query q st = (Returns r, st') ->
  dom r
  = (if safe (check_query_safety q)
     then list_to_set ["question"; "answer"; "citations"; "sources";
                       "num_sources"; "cost"]
     else list_to_set ["question"; "answer"; "citations"; "sources";
                       "risk_level"; "safe"] : gset string)
  /\ r !! "citation_accuracy" = None
  /\ r !! "transparency_score" = None.
Proof.
  intros Hq.
  destruct (query_cases q st)
    as [[Hs H]|[[Hs (e & w & E & H)]|[[Hs (results & w & E & Hf & H)]
        |[Hs (results & w & d & kept & out & w' & E & Hf & Hg & H)]]]];
    rewrite H in Hq; try discriminate; injection Hq as <- _; rewrite Hs;
    (split; [|split; reflexivity]);
    unfold empty_result, generated_result;
    rewrite !dom_insert_L, dom_empty_L; reflexivity.
Qed.

(** X20. In every dictionary that [query] returns, each key of the
    citations is the pmid of one of the sources and occurs as a marker
    in the answer, each source has a similarity score at or above the
    threshold of the pipeline, and for a query that is not blocked
    [num_sources] is the number of sources. *)
Theorem X20_result_is_consistent q st r st' :
  query q st = (Returns r, st') ->
  exists answer citations sources,
    r !! "answer" = Some (VStr answer)
    /\ r !! "citations" = Some (VCitations citations)
    /\ r !! "sources" = Some (VDocs sources)
    /\ (forall p, is_Some (citations !! p) ->
          p ∈ findall_pmid answer /\ exists d, d ∈ sources /\ pmid d = p)
    /\ (forall d, d ∈ sources ->
          (similarity_threshold (self st) <= similarity_score d)%Q)
    /\ (safe (check_query_safety q) = true ->
        r !! "num_sources" = Some (VInt (Z.of_nat (length sources)))).
Proof.
  intros Hq.
  destruct (query_cases q st)
    as [[Hs H]|[[Hs (e & w & E & H)]|[[Hs (results & w & E & Hf & H)]
        |[Hs (results & w & d & kept & out & w' & E & Hf & Hg & H)]]]];
    rewrite H in Hq; try discriminate; injection Hq as <- _.
  - exists emergency_warning, ∅, []. repeat split; try reflexivity.
    + destruct H0 as [c Hc]. rewrite lookup_empty in Hc. discriminate.
    + destruct H0 as [c Hc]. rewrite lookup_empty in Hc. discriminate.
    + intros d Hd. inversion Hd.
    + rewrite Hs. discriminate.
  - exists no_literature, ∅, []. repeat split; try reflexivity.
    + destruct H0 as [c Hc]. rewrite lookup_empty in Hc. discriminate.
    + destruct H0 as [c Hc]. rewrite lookup_empty in Hc. discriminate.
    + intros d Hd. inversion Hd.
  - exists (answer_of out),
      (extract_citations (answer_of out) (d :: kept)), (d :: kept).
    split; [reflexivity|]. split; [reflexivity|]. split; [reflexivity|].
    split; [|split].
    + intros p [c Hc]. rewrite extract_citations_lookup in Hc.
      destruct (decide (p ∈ findall_pmid (answer_of out))) as [Hin|];
        [|discriminate].
      split; [exact Hin|].
      destruct (List.find _ (d :: kept)) as [doc|] eqn:Ef; [|discriminate].
      apply find_pmid_some in Ef. eauto.
    + intros d' Hd'. rewrite <- Hf in Hd'.
      apply list_elem_of_In, filter_In in Hd' as [_ Hp].
      apply passes_iff, Hp.
    + reflexivity.
Qed.

(** X21. What [query] asks of its collaborators: nothing when the
    query is blocked; otherwise one search for the question with
    [top_k], and after it, only when some document passed the
    threshold, one generation whose prompt is made from the question
    and the documents that passed. No other call is made, and the
    search is never repeated. *)
Theorem X21_calls_made_by_query q st out st' :
  query q st = (out, st') ->
  (safe (check_query_safety q) = false /\ calls st' = calls st)
  \/ (safe (check_query_safety q) = true
      /\ calls st' = (calls st ++ [SearchCall q (top_k (self st))])%list
      /\ (forall r, out = Returns r -> r !! "sources" = Some (VDocs [])))
  \/ (safe (check_query_safety q) = true
      /\ exists results w d kept,
           vector_db_search q (top_k (self st)) (world st)
           = (Returns results, w)
           /\ List.filter (passes (similarity_threshold (self st))) results
              = d :: kept
           /\ calls st'
              = (calls st
                 ++ [SearchCall q (top_k (self st));
                     GenerateCall
                       (create_prompt q (format_context (d :: kept)))])%list).
Proof.
  intros Hq.
  destruct (query_cases q st)
    as [[Hs H]|[[Hs (e & w & E & H)]|[[Hs (results & w & E & Hf & H)]
        |[Hs (results & w & d & kept & o & w' & E & Hf & Hg & H)]]]];
    rewrite H in Hq; injection Hq as <- <-.
  - left. auto.
  - right. left. split; [exact Hs|]. split; [reflexivity|]. discriminate.
  - right. left. split; [exact Hs|]. split; [reflexivity|].
    intros r Hr. injection Hr as <-. reflexivity.
  - right. right. split; [exact Hs|]. exists results, w, d, kept.
    split; [exact E|]. split; [exact Hf|]. simpl.
    rewrite <- app_assoc. reflexivity.
Qed.

Lemma query_question q st r st' :
  query q st = (Returns r, st') -> r !! "question" = Some (VStr q).
Proof.
  intros Hq.
  destruct (query_cases q st)
    as [[Hs H]|[[Hs (e & w & E & H)]|[[Hs (results & w & E & Hf & H)]
        |[Hs (results & w & d & kept & o & w' & E & Hf & Hg & H)]]]];
    rewrite H in Hq; try discriminate; injection Hq as <- _; reflexivity.
Qed.

(** X22. When [batch_query] returns, it returns one dictionary per
    question, in the order of the questions, each carrying its own
    question. *)
Theorem X22_batch_results_follow_questions questions : forall st results st',
  batch_query questions st = (Returns results, st') ->
  length results = length questions
  /\ (fun r => r !! "question") <$> results
     = (fun question => Some (VStr question)) <$> questions.
Proof.
  induction questions as [|q rest IH]; intros st results st' H.
  - injection H as <- _. split; reflexivity.
  - simpl in H. unfold bind at 1 in H.
    destruct (query q st) as [[r|e] st1] eqn:Hq; [|discriminate].
    unfold bind at 1 in H.
    destruct (RagPipeline.batch_query vector_db_search llm_generate_content
                rest st1) as [[rs|e] st2] eqn:Hb; [|discriminate].
    injection H as <- _. destruct (IH _ _ _ Hb) as [Hlen Hmap].
    split; [simpl; rewrite Hlen; reflexivity|].
    rewrite !fmap_cons, Hmap, (query_question _ _ _ _ Hq). reflexivity.
Qed.

(** X23. Whatever a batch does, it returns or an exception of the
    vector database ends it, the pipeline object changes in its counter
    only, and the counter goes up by at most the number of questions:
    the answers counted before the exception stay counted. *)
Theorem X23_batch_counter_bounds questions : forall st out st',
  batch_query questions st = (out, st') ->
  exists n,
    (0 <= n <= Z.of_nat (length questions))%Z
    /\ self st' = with_query_count (query_count (self st) + n) (self st).
Proof.
  induction questions as [|q rest IH]; intros st out st' H.
  - injection H as _ <-. exists 0%Z. split; [simpl; lia|].
    rewrite Z.add_0_r, with_query_count_same. reflexivity.
  - simpl in H. unfold bind at 1 in H.
    destruct (query q st) as [[r|e] st1] eqn:Hq.
    + pose proof (query_self _ _ _ _ _ _ Hq) as Hself.
      unfold bind at 1 in H.
      destruct (RagPipeline.batch_query vector_db_search llm_generate_content
                  rest st1) as [o2 st2] eqn:Hb.
      destruct (IH _ _ _ Hb) as (n & Hn & Hself2).
      assert (Hst : st' = st2) by (destruct o2; injection H; auto).
      subst st'.
      exists ((if fully_generated r then 1 else 0) + n)%Z. split.
      * rewrite length_cons, Nat2Z.inj_succ.
        destruct (fully_generated r); lia.
      * rewrite Hself2, Hself, with_query_count_twice. f_equal.
        unfold with_query_count. simpl. lia.
    + injection H as _ <-.
      pose proof (query_self _ _ _ _ _ _ Hq) as Hself.
      exists 0%Z. split; [rewrite length_cons; lia | exact Hself].
Qed.

(** X7. On the documents that [retrieve_documents] returns, when the
    threshold of the pipeline is at least [min_similarity_threshold] and
    one document is enough, [validate_retrieval] finds nothing to hold
    against a non-empty retrieval: [valid] stays set, no source is
    reported as low-confidence, and the only issue there can be is the
    count of old sources. With the default settings (0.5 and 0.5, one
    document) the message about validation issues of [query] is
    therefore never printed. *)
Theorem X7_retrieved_documents_validate rm current_year q st d kept st' :
  retrieve_documents q st = (Returns (d :: kept), st') ->
  (min_similarity_threshold rm <= similarity_threshold (self st))%Q ->
  (min_documents_required rm <= 1)%Z ->
  retrieval_valid (validate_retrieval rm current_year (d :: kept)) = true
  /\ (issues (validate_retrieval rm current_year (d :: kept)) = []
      \/ issues (validate_retrieval rm current_year (d :: kept))
         = ["INFO: "
            +:+ str_of_nat
                  (length (List.filter (is_old current_year) (d :: kept)))
            +:+ " sources older than 5 years"]).
Proof.
  intros Hr Hthr Hmin.
  assert (Hpass : forall x, x ∈ d :: kept ->
            (similarity_threshold (self st) <= similarity_score x)%Q).
  { destruct (vector_db_search q (top_k (self st)) (world st))
      as [[results|e] w] eqn:E.
    - rewrite (retrieve_documents_returns _ _ _ _ _ E) in Hr.
      injection Hr as Hf _. intros x Hx. rewrite <- Hf in Hx.
      apply list_elem_of_In, filter_In in Hx as [_ Hp]. apply passes_iff, Hp.
    - rewrite (retrieve_documents_raises _ _ _ _ _ E) in Hr. discriminate. }
  assert (Hlow : List.filter (low_similarity rm) (d :: kept) = []).
  { apply filter_nil_iff. intros x Hx. apply low_similarity_false.
    eapply Qle_trans; [exact Hthr | apply Hpass, Hx]. }
  unfold validate_retrieval. rewrite Hlow.
  destruct (Z.ltb_spec (Z.of_nat (length (d :: kept)))
              (min_documents_required rm)) as [Hn|Hn].
  - rewrite length_cons, Nat2Z.inj_succ in Hn. lia.
  - destruct (List.filter (is_old current_year) (d :: kept)) eqn:Eold;
      simpl; auto.
Qed.

End Orchestrator.

Lemma X19_witness :
  exists r st',
    RagPipeline.query (Examples.search_fixed [Examples.doc111])
      (Examples.generate_fixed Examples.answer_D) Examples.query_A
      Examples.fresh = (Returns r, st')
    /\ r !! "citation_accuracy" = None
    /\ r !! "transparency_score" = None.
Proof.
  eassert (Hq : RagPipeline.query (Examples.search_fixed [Examples.doc111])
                  (Examples.generate_fixed Examples.answer_D)
                  Examples.query_A Examples.fresh = (Returns _, _))
    by (eapply query_generated; reflexivity).
  do 2 eexists. split; [exact Hq|].
  exact (proj2 (X19_result_key_sets _ _ _ _ _ _ Hq)).
Defined.

Lemma X7_witness :
  retrieval_valid
    (validate_retrieval new_risk_manager 2025
       [Examples.doc111; Examples.doc_at_threshold]) = true.
Proof.
  apply (X7_retrieved_documents_validate
           (Examples.search_fixed
              [Examples.doc111; Examples.doc_at_threshold; Examples.doc333])
           new_risk_manager 2025 Examples.query_A Examples.fresh
           Examples.doc111 [Examples.doc_at_threshold]
           (searched Examples.query_A 1%nat Examples.fresh)).
  - reflexivity.
  - vm_compute. discriminate.
  - vm_compute. discriminate.
Defined.

Lemma X20_witness :
  exists r st',
    RagPipeline.query (Examples.search_fixed [Examples.doc111; Examples.doc333])
      (Examples.generate_fixed Examples.answer_D) Examples.query_A
      Examples.fresh = (Returns r, st')
    /\ exists sources,
         r !! "sources" = Some (VDocs sources)
         /\ forall d, d ∈ sources -> (1 # 2 <= similarity_score d)%Q.
Proof.
  eassert (Hq : RagPipeline.query
                  (Examples.search_fixed [Examples.doc111; Examples.doc333])
                  (Examples.generate_fixed Examples.answer_D)
                  Examples.query_A Examples.fresh = (Returns _, _))
    by (eapply query_generated; reflexivity).
  do 2 eexists. split; [exact Hq|].
  destruct (X20_result_is_consistent _ _ _ _ _ _ Hq)
    as (answer & citations & sources & _ & _ & Hsrc & _ & Hthr & _).
  exists sources. split; [exact Hsrc | exact Hthr].
Defined.

Lemma X21_witness :
  exists out st',
    RagPipeline.query (Examples.search_fixed [Examples.doc333])
      Examples.generate_quota Examples.query_A Examples.fresh = (out, st')
    /\ calls st' = [SearchCall Examples.query_A 3].
Proof.
  eassert (Hq : RagPipeline.query (Examples.search_fixed [Examples.doc333])
                  Examples.generate_quota Examples.query_A Examples.fresh
                = (Returns _, _))
    by (eapply query_empty; reflexivity).
  do 2 eexists. split; [exact Hq|].
  destruct (X21_calls_made_by_query _ _ _ _ _ _ Hq)
    as [[Hs _]|[(_ & Hc & _)|(_ & results & w & d & kept & E & Hf & _)]].
  - vm_compute in Hs. discriminate Hs.
  - exact Hc.
  - unfold Examples.search_fixed in E. injection E as <- _.
    vm_compute in Hf. discriminate Hf.
Defined.

Lemma X22_witness :
  exists results st',
    RagPipeline.batch_query (Examples.search_fixed [Examples.doc111])
      (Examples.generate_fixed Examples.answer_D)
      [Examples.query_B; Examples.query_A] Examples.fresh
    = (Returns results, st')
    /\ (fun r => r !! "question") <$> results
       = [Some (VStr Examples.query_B); Some (VStr Examples.query_A)].
Proof.
  eassert (Hb : RagPipeline.batch_query
                  (Examples.search_fixed [Examples.doc111])
                  (Examples.generate_fixed Examples.answer_D)
                  [Examples.query_B; Examples.query_A] Examples.fresh
                = (Returns _, _)).
  { eapply batch_query_cons; [apply query_blocked; reflexivity|].
    eapply batch_query_cons; [|apply batch_query_nil].
    eapply query_generated; reflexivity. }
  do 2 eexists. split; [exact Hb|].
  exact (proj2 (X22_batch_results_follow_questions _ _ _ _ _ _ Hb)).
Defined.

Lemma X23_witness :
  exists out st' n,
    RagPipeline.batch_query Examples.search_not_loaded
      (Examples.generate_fixed Examples.answer_D)
      [Examples.query_B; Examples.query_A] Examples.fresh = (out, st')
    /\ (0 <= n <= 2)%Z
    /\ self st' = with_query_count (0 + n) (self Examples.fresh).
Proof.
  eassert (Hb : RagPipeline.batch_query Examples.search_not_loaded
                  (Examples.generate_fixed Examples.answer_D)
                  [Examples.query_B; Examples.query_A] Examples.fresh
                = (Raises _, _)).
  { eapply batch_query_cons_raises; [apply query_blocked; reflexivity|].
    eapply batch_query_raises, query_search_raises; reflexivity. }
  destruct (X23_batch_counter_bounds _ _ _ _ _ _ Hb) as (n & Hn & Hself).
  do 3 eexists. split; [exact Hb|]. split; [exact Hn | exact Hself].
Defined.

End PipelineFacts2.

(** ** The vector database: search by specialty *)

Module VectorDbFacts.
Import PyInt RagPipeline VectorDb PipelineFacts2.

Lemma slice_to_prefix {A} (k : Z) (l : list A) : slice_to k l `prefix_of` l.
Proof.
  unfold slice_to. destruct (0 <=? k)%Z; apply prefix_take.
Qed.

Lemma slice_to_length {A} (k : Z) (l : list A) :
  (0 <= k)%Z -> (length (slice_to k l) <= Z.to_nat k)%nat.
Proof.
  intros Hk. unfold slice_to.
  destruct (Z.leb_spec 0 k) as [_|Hn]; [|lia].
  rewrite length_take. lia.
Qed.

(** X24. [search_by_specialty] asks the index for three times [top_k]
    candidates, once. What it returns is a prefix of the candidates of
    the requested specialty, in the order of the index: every result has
    that specialty, there are at most [top_k] of them when [top_k] is
    not negative, none when it is 0, and fewer than [top_k] when the
    candidates hold fewer of that specialty. *)
Theorem X24_search_by_specialty {World}
    (vector_db_search :
       string -> Z -> World -> Outcome (list Document) * World)
    query wanted k (st : @State World) results w :
  vector_db_search query (k * 3)%Z (world st) = (Returns results, w) ->
  exists found,
    search_by_specialty vector_db_search query wanted k st
    = (Returns found,
       mkState (self st) w (calls st ++ [SearchCall query (k * 3)])%list)
    /\ found `prefix_of`
         List.filter (fun r => bool_decide (specialty r = wanted)) results
    /\ sublist found results
    /\ (forall d, d ∈ found -> specialty d = wanted)
    /\ ((0 <= k)%Z -> (length found <= Z.to_nat k)%nat)
    /\ (k = 0%Z -> found = []).
Proof.
  intros H. unfold search_by_specialty, bind, call_search, ret. rewrite H.
  set (matching :=
         List.filter (fun r => bool_decide (specialty r = wanted)) results).
  exists (slice_to k matching). split; [reflexivity|].
  pose proof (slice_to_prefix k matching) as Hpre.
  split; [exact Hpre|]. split; [|split; [|split]].
  - transitivity matching; [|apply filter_sublist].
    unfold slice_to. destruct (0 <=? k)%Z; apply sublist_take.
  - intros d Hd.
    assert (Hin : d ∈ matching).
    { destruct Hpre as [rest Hrest]. rewrite Hrest.
      apply elem_of_app. left. exact Hd. }
    apply list_elem_of_In, filter_In in Hin as [_ Hs].
    apply bool_decide_eq_true in Hs. exact Hs.
  - apply slice_to_length.
  - intros ->. reflexivity.
Qed.

Lemma X24_witness :
  exists found,
    search_by_specialty
      (Examples.search_fixed
         [Examples.doc111; Examples.doc333; Examples.doc222])
      "diabetes" "endocrinology" 1 Examples.fresh
    = (Returns found,
       mkState (self Examples.fresh) 1%nat [SearchCall "diabetes" 3])
    /\ (length found <= 1)%nat.
Proof.
  destruct (X24_search_by_specialty
              (Examples.search_fixed
                 [Examples.doc111; Examples.doc333; Examples.doc222])
              "diabetes" "endocrinology" 1 Examples.fresh
              [Examples.doc111; Examples.doc333; Examples.doc222] 1%nat
              eq_refl) as (found & Hs & _ & _ & _ & Hlen & _).
  exists found. split; [exact Hs | apply Hlen; lia].
Defined.

End VectorDbFacts.
